(** * Vehicle routing: constraint provider and demo-data generator

    A shallow embedding of [vehicle_routing/constraints.py] and
    [vehicle_routing/demo_data.py].

    Conventions of the embedding:
    - a Python [int] is a [Z];
    - a Python [float] is a [spec_float] (IEEE 754 binary64 as a datatype);
      literals are obtained by evaluating the primitive float once;
    - a [datetime.date] is its proleptic ordinal (a [Z], one unit per day),
      a [datetime.timedelta] is a number of seconds, and a naive
      [datetime.datetime] is the number of seconds since midnight of ordinal
      day 0 (the program never produces a sub-second component);
    - [date.today()] is read from a clock that gives every call made during
      one run of the generator its own date; a run "on a day" is one during
      which the clock keeps returning that day;
    - the Timefold constraint streams are modelled by what they select from a
      route plan: a stream is the list of tuples it matches, a constraint is a
      name, a weight and the list of match weights. *)

From Stdlib Require Import ZArith List String Lia Bool.
From Stdlib Require Import Floats.PrimFloat Floats.SpecFloat Floats.FloatOps.
From Stdlib Require Import DecimalString DecimalZ DecimalPos Permutation.
Import ListNotations.
Local Open Scope string_scope.
Local Open Scope list_scope.
Local Open Scope Z_scope.
Set Warnings "-inexact-float".

(** ** Time *)

Definition date := Z.
Definition timedelta := Z.
Definition datetime := Z.

(** [datetime.time(hour, minute)]; seconds and microseconds default to 0. *)
Record time := mk_time { hour : Z; minute : Z }.

(** The range check of the [time] constructor. *)
Definition time_valid (t : time) : Prop :=
  0 <= hour t < 24 /\ 0 <= minute t < 60.

Definition seconds_of_time (t : time) : Z := 3600 * hour t + 60 * minute t.

Definition SECONDS_PER_DAY : Z := 86400.

(** [datetime.combine(d, t)] *)
Definition datetime_combine (d : date) (t : time) : datetime :=
  SECONDS_PER_DAY * d + seconds_of_time t.

(** [dt.date()] and [dt.time()] read back as day ordinal and second of day. *)
Definition datetime_date (dt : datetime) : date := dt / SECONDS_PER_DAY.
Definition datetime_second_of_day (dt : datetime) : Z := dt mod SECONDS_PER_DAY.

(** [timedelta(days=n)] and [timedelta(minutes=n)] *)
Definition timedelta_days (n : Z) : timedelta := SECONDS_PER_DAY * n.
Definition timedelta_minutes (n : Z) : timedelta := 60 * n.

(** ** Score: [HardSoftScore] *)

Record HardSoftScore := HardSoftScore_of { hard_score : Z; soft_score : Z }.

Definition ZERO : HardSoftScore := HardSoftScore_of 0 0.

Definition score_add (a b : HardSoftScore) : HardSoftScore :=
  HardSoftScore_of (hard_score a + hard_score b) (soft_score a + soft_score b).

Definition score_multiply (a : HardSoftScore) (k : Z) : HardSoftScore :=
  HardSoftScore_of (hard_score a * k) (soft_score a * k).

Definition score_negate (a : HardSoftScore) : HardSoftScore :=
  HardSoftScore_of (- hard_score a) (- soft_score a).

(** ** Domain ([from .domain import *])

    [domain.py] is not among the sources.  The records below carry the
    constructor arguments that [demo_data.py] passes and the attributes that
    [constraints.py] reads; the methods are modelled from the specification
    (section 3, "Data model"). *)

(** Modelled from the spec: the class [Location] of [domain.py], "a
    latitude/longitude pair" of floats. *)
Record Location := mk_Location { latitude : spec_float; longitude : spec_float }.

(** Modelled from the spec: the class [Visit] of [domain.py].  The first seven
    fields are the keyword arguments [generate_demo_data] passes ([id],
    [name], ...); the last two are the "state set by the Solver": the vehicle
    the visit is assigned to, by its id, and the computed arrival time. *)
Record Visit := mk_Visit {
  visit_id : string;
  visit_name : string;
  location : Location;
  demand : Z;
  min_start_time : datetime;
  max_end_time : datetime;
  service_duration : timedelta;
  (* state assigned by the solver; [None] while the visit is unassigned *)
  vehicle : option string;
  arrival_time : option datetime
}.

(** Modelled from the spec: the class [Vehicle] of [domain.py], with the
    keyword arguments [generate_demo_data] passes and the "ordered sequence of
    assigned Visits", empty when the vehicle is constructed. *)
Record Vehicle := mk_Vehicle {
  vehicle_id : string;
  capacity : Z;
  home_location : Location;
  departure_time : datetime;
  visits : list Visit
}.

(** Modelled from the spec: the class [VehicleRoutePlan] of [domain.py], with
    the keyword arguments [generate_demo_data] passes. *)
Record VehicleRoutePlan := mk_VehicleRoutePlan {
  plan_name : string;
  plan_south_west_corner : Location;
  plan_north_east_corner : Location;
  vehicles : list Vehicle;
  plan_visits : list Visit
}.

(** Modelled from the spec: the constructor of [Vehicle] in [domain.py], as
    [generate_demo_data] calls it, with an id, a capacity, a home location
    and a departure time.  The sequence of visits is not passed: it is the
    Solver that fills it ("the Solver is the sole mutator of this sequence"),
    so it starts empty. *)
Definition Vehicle_init (id : string) (capacity : Z) (home_location : Location)
  (departure_time : datetime) : Vehicle :=
  {| vehicle_id := id; capacity := capacity; home_location := home_location;
     departure_time := departure_time; visits := [] |}.

(** Modelled from the spec: the constructor of [Visit] in [domain.py], as
    [generate_demo_data] calls it.  The vehicle and the arrival time are
    "set by the Solver, not by the user" and "nullable - unassigned is a
    valid transient state": a new visit has neither. *)
Definition Visit_init (id name : string) (location : Location) (demand : Z)
  (min_start_time max_end_time : datetime) (service_duration : timedelta) : Visit :=
  {| visit_id := id; visit_name := name; location := location; demand := demand;
     min_start_time := min_start_time; max_end_time := max_end_time;
     service_duration := service_duration; vehicle := None; arrival_time := None |}.

(** Modelled from the spec: [Vehicle.calculate_total_demand] of [domain.py].
    "total demand (sum of assigned visits' demand)";
    "total_demand == sum(v.demand for v in vehicle.visits)". *)
Definition calculate_total_demand (self : Vehicle) : Z :=
  fold_right (fun visit acc => demand visit + acc) 0 (visits self).

(** Modelled from the spec: the attribute [Vehicle.total_demand] of
    [domain.py], the same derived quantity read as a property. *)
Definition total_demand (self : Vehicle) : Z := calculate_total_demand self.

(** Modelled from the spec: [Visit.calculate_departure_time] of [domain.py],
    the computed service-finish time.  "the vehicle waits if it arrives early,
    it never starts service before the visit's window opens"; service then
    lasts for the service duration.  An unassigned visit has no computed
    time. *)
Definition calculate_departure_time (self : Visit) : option datetime :=
  match arrival_time self with
  | Some arrival => Some (Z.max arrival (min_start_time self) + service_duration self)
  | None => None
  end.

(** Modelled from the spec: [Visit.is_service_finished_after_max_end_time] of
    [domain.py].  "Visit where computed service-finish time > max end time";
    an unassigned visit makes no contribution. *)
Definition is_service_finished_after_max_end_time (self : Visit) : bool :=
  match calculate_departure_time self with
  | Some finish => finish >? max_end_time self
  | None => false
  end.

(** A time span in whole minutes; a started minute counts. *)
Definition whole_minutes (span : timedelta) : Z := - ((- span) / 60).

(** Modelled from the spec: [Visit.service_finished_delay_in_minutes] of
    [domain.py].  "finish delay, in minutes": the time between the max end
    time and the computed service finish.  The specification is silent on
    delays that are not a whole number of minutes; they are rounded up here,
    so that every late visit has a positive delay. *)
Definition service_finished_delay_in_minutes (self : Visit) : Z :=
  match calculate_departure_time self with
  | Some finish => whole_minutes (finish - max_end_time self)
  | None => 0
  end.

(** ** Constraint streams

    What [timefold.solver.score] provides, reduced to its meaning on a route
    plan.  [for_each(cls)] selects the instances of a class, [filter] keeps
    the tuples that satisfy a predicate, [penalize] fixes the weight and the
    match weigher, [as_constraint] names the result. *)

Inductive ConstraintFactory := the_factory.

Definition UniConstraintStream (A : Type) := VehicleRoutePlan -> list A.

Class PlanningClass (A : Type) := { instances : VehicleRoutePlan -> list A }.

#[export] Instance Vehicle_class : PlanningClass Vehicle := {| instances := vehicles |}.
#[export] Instance Visit_class : PlanningClass Visit := {| instances := plan_visits |}.

Definition for_each (factory : ConstraintFactory) (A : Type) `{PlanningClass A}
  : UniConstraintStream A := instances.

Definition filter {A} (predicate : A -> bool) (stream : UniConstraintStream A)
  : UniConstraintStream A :=
  fun plan => List.filter predicate (stream plan).

Record UniConstraintBuilder := mk_builder {
  builder_weight : HardSoftScore;
  builder_matches : VehicleRoutePlan -> list Z
}.

(** [stream.penalize(weight, match_weigher)] *)
Definition penalize {A} (weight : HardSoftScore) (match_weigher : A -> Z)
  (stream : UniConstraintStream A) : UniConstraintBuilder :=
  {| builder_weight := weight;
     builder_matches := fun plan => map match_weigher (stream plan) |}.

(** [stream.penalize(weight)]: every match weighs 1. *)
Definition penalize_each {A} (weight : HardSoftScore)
  (stream : UniConstraintStream A) : UniConstraintBuilder :=
  penalize weight (fun _ => 1) stream.

Record Constraint := mk_Constraint {
  constraint_name : string;
  constraint_weight : HardSoftScore;
  match_weights : VehicleRoutePlan -> list Z
}.

Definition as_constraint (name : string) (builder : UniConstraintBuilder) : Constraint :=
  {| constraint_name := name;
     constraint_weight := builder_weight builder;
     match_weights := builder_matches builder |}.

(** Method chaining: [s |> f |> g] is [s.f(..).g(..)]. *)
Notation "s |> f" := (f s) (at level 45, left associativity, only parsing).

(** A penalizing match of weight [w] moves the score by [- (weight * w)]. *)
Definition match_impact (c : Constraint) (w : Z) : HardSoftScore :=
  score_negate (score_multiply (constraint_weight c) w).

Definition constraint_score (c : Constraint) (plan : VehicleRoutePlan) : HardSoftScore :=
  fold_right (fun w acc => score_add (match_impact c w) acc) ZERO (match_weights c plan).

(** ** [constraints.py] *)

(** Constraint names *)
Definition VEHICLE_CAPACITY := "vehicleCapacity".
Definition MINIMIZE_TRAVEL_TIME := "minimizeTravelTime".
Definition SERVICE_FINISHED_AFTER_MAX_END_TIME := "serviceFinishedAfterMaxEndTime".
Definition BALANCE_LOAD := "balanceLoad".
Definition LIMIT_DRIVING_TIME := "limitDrivingTime".
Definition MINIMIZE_MAX_LOAD := "minimizeMaxLoad".
Definition ENCOURAGE_FULL_UTILIZATION := "encourageFullUtilization".
Definition MINIMIZE_VEHICLE_COUNT := "minimizeVehicleCount".

(** The module-level switches.  [define_constraints] reads them when it is
    called, so they are an environment of the function; [module_flags] holds
    the values the module assigns. *)
Record Flags := mk_Flags {
  ENABLE_TIME_WINDOW_CONSTRAINTS : bool;
  ENABLE_LOAD_BALANCING : bool;
  ENABLE_DRIVING_TIME_LIMIT : bool;
  ENABLE_MINIMIZE_MAX_LOAD : bool;
  ENABLE_ENCOURAGE_FULL_UTILIZATION : bool;
  ENABLE_MINIMIZE_VEHICLE_COUNT : bool
}.

Definition module_flags : Flags :=
  {| ENABLE_TIME_WINDOW_CONSTRAINTS := true;
     ENABLE_LOAD_BALANCING := false;
     ENABLE_DRIVING_TIME_LIMIT := false;
     ENABLE_MINIMIZE_MAX_LOAD := false;
     ENABLE_ENCOURAGE_FULL_UTILIZATION := false;
     ENABLE_MINIMIZE_VEHICLE_COUNT := true |}.

(** Driving time limit in seconds *)
Definition DRIVING_TIME_LIMIT_SECONDS : Z := 3 * 60 * 60.

(** Load thresholds *)
Definition MAX_LOAD_PER_VEHICLE : Z := 15.
Definition MIN_LOAD_THRESHOLD : Z := 5.

Section Constraints.

(** [Vehicle.calculate_total_driving_time_seconds] of [domain.py]: it is
    computed from the distance function of [Location], which the
    specification leaves to the implementation; a parameter here. *)
Variable calculate_total_driving_time_seconds : Vehicle -> Z.

(** The attribute [Vehicle.total_driving_time_seconds], the same derived
    quantity read as a property. *)
Definition total_driving_time_seconds (self : Vehicle) : Z :=
  calculate_total_driving_time_seconds self.

(** *** Hard constraints *)

Definition vehicle_capacity (factory : ConstraintFactory) : Constraint :=
  for_each factory Vehicle
  |> filter (fun vehicle => calculate_total_demand vehicle >? capacity vehicle)
  |> penalize (HardSoftScore_of 1 0)
       (fun vehicle => calculate_total_demand vehicle - capacity vehicle)
  |> as_constraint VEHICLE_CAPACITY.

Definition service_finished_after_max_end_time (factory : ConstraintFactory) : Constraint :=
  for_each factory Visit
  |> filter (fun visit => is_service_finished_after_max_end_time visit)
  |> penalize (HardSoftScore_of 1 0)
       (fun visit => service_finished_delay_in_minutes visit)
  |> as_constraint SERVICE_FINISHED_AFTER_MAX_END_TIME.

Definition limit_driving_time (factory : ConstraintFactory) : Constraint :=
  for_each factory Vehicle
  |> filter (fun vehicle => total_driving_time_seconds vehicle >? DRIVING_TIME_LIMIT_SECONDS)
  |> penalize (HardSoftScore_of 1 0)
       (fun vehicle => total_driving_time_seconds vehicle - DRIVING_TIME_LIMIT_SECONDS)
  |> as_constraint LIMIT_DRIVING_TIME.

(** *** Soft constraints *)

Definition minimize_travel_time (factory : ConstraintFactory) : Constraint :=
  for_each factory Vehicle
  |> penalize (HardSoftScore_of 0 1)
       (fun vehicle => calculate_total_driving_time_seconds vehicle)
  |> as_constraint MINIMIZE_TRAVEL_TIME.

Definition balance_load (factory : ConstraintFactory) : Constraint :=
  for_each factory Vehicle
  |> penalize (HardSoftScore_of 0 5) (fun vehicle => total_demand vehicle)
  |> as_constraint BALANCE_LOAD.

Definition minimize_max_load (factory : ConstraintFactory) : Constraint :=
  for_each factory Vehicle
  |> filter (fun vehicle => total_demand vehicle >? MAX_LOAD_PER_VEHICLE)
  |> penalize (HardSoftScore_of 0 10)
       (fun vehicle => total_demand vehicle - MAX_LOAD_PER_VEHICLE)
  |> as_constraint MINIMIZE_MAX_LOAD.

Definition encourage_full_utilization (factory : ConstraintFactory) : Constraint :=
  for_each factory Vehicle
  |> filter (fun vehicle => total_demand vehicle <? MIN_LOAD_THRESHOLD)
  |> penalize (HardSoftScore_of 0 3)
       (fun vehicle => MIN_LOAD_THRESHOLD - total_demand vehicle)
  |> as_constraint ENCOURAGE_FULL_UTILIZATION.

Definition minimize_vehicle_count (factory : ConstraintFactory) : Constraint :=
  for_each factory Vehicle
  |> filter (fun vehicle => Z.of_nat (List.length (visits vehicle)) >? 0)
  |> penalize_each (HardSoftScore_of 0 20)
  |> as_constraint MINIMIZE_VEHICLE_COUNT.

(** [constraints.append(c)] when the switch is on. *)
Definition append_if (flag : bool) (c : Constraint) (constraints : list Constraint)
  : list Constraint :=
  if flag then constraints ++ [c] else constraints.

Definition define_constraints (flags : Flags) (factory : ConstraintFactory)
  : list Constraint :=
  let constraints := [vehicle_capacity factory] in
  let constraints :=
    append_if (ENABLE_TIME_WINDOW_CONSTRAINTS flags)
      (service_finished_after_max_end_time factory) constraints in
  let constraints :=
    append_if (ENABLE_DRIVING_TIME_LIMIT flags) (limit_driving_time factory) constraints in
  let constraints := constraints ++ [minimize_travel_time factory] in
  let constraints :=
    append_if (ENABLE_LOAD_BALANCING flags) (balance_load factory) constraints in
  let constraints :=
    append_if (ENABLE_MINIMIZE_MAX_LOAD flags) (minimize_max_load factory) constraints in
  let constraints :=
    append_if (ENABLE_ENCOURAGE_FULL_UTILIZATION flags)
      (encourage_full_utilization factory) constraints in
  let constraints :=
    append_if (ENABLE_MINIMIZE_VEHICLE_COUNT flags)
      (minimize_vehicle_count factory) constraints in
  constraints.

End Constraints.

(** ** Exceptions and formatted messages *)

(** An f-string is kept as its pieces: literal text and the values that are
    formatted into it. *)
Inductive fragment :=
| Text (s : string)
| Int (z : Z)
| Float (x : spec_float).

Definition message := list fragment.

Inductive exn :=
| ValueError (msg : message)
| IndexError (msg : message).

Inductive result (A : Type) :=
| Ok (a : A)
| Raise (e : exn).
Arguments Ok {A} a.
Arguments Raise {A} e.

(** [str(i)] for an [int]. *)
Definition str (i : Z) : string := NilZero.string_of_int (Z.to_int i).

(** [range(n)] *)
Definition range (n : Z) : list Z := map Z.of_nat (seq 0 (Z.to_nat n)).

(** [len(sequence)] *)
Definition len {A} (sequence : list A) : Z := Z.of_nat (List.length sequence).

(** [sequence[i]]: a negative index counts from the end.  (The text of the
    error names the type of the sequence; it is left out.) *)
Definition getitem {A} (sequence : list A) (i : Z) : result A :=
  let k := if i <? 0 then i + len sequence else i in
  if k <? 0 then Raise (IndexError [Text "index out of range"])
  else match nth_error sequence (Z.to_nat k) with
       | Some x => Ok x
       | None => Raise (IndexError [Text "index out of range"])
       end.

(** ** Floats: binary64 arithmetic *)

Definition float_add (x y : spec_float) : spec_float := SFadd prec emax x y.
Definition float_sub (x y : spec_float) : spec_float := SFsub prec emax x y.

Definition float_is_finite (x : spec_float) : bool :=
  match x with
  | S754_zero _ | S754_finite _ _ _ => true
  | S754_infinity _ | S754_nan => false
  end.

(** A range [a .. b] of finite floats, [a <= b], in which [a + (b - a)] is
    [b] again when computed in binary64.  The library computes
    [uniform(a, b)] as [a + (b - a) * random()] with [0 <= random() < 1]:
    rounding being monotone, in such a range the product lies between 0 and
    [b - a] and the sum between [a] and [b].  In other ranges (a difference
    that overflows, say) the result can leave the range. *)
Definition exact_range (a b : spec_float) : bool :=
  float_is_finite a && float_is_finite b && SFleb a b &&
  SFeqb (float_add a (float_sub b a)) b.

(** ** [random.Random]

    The generator of the Python library is a parameter: a state, the seeding
    constructor and the primitives the library methods used here are built
    on.  [RandomContract] records what the library documents of them. *)

Record RandomSource := mk_RandomSource {
  Rng : Type;
  Random : Z -> Rng;
  _randbelow : Z -> Rng -> Z * Rng;
  random_random : Rng -> spec_float * Rng;
  random_uniform : spec_float -> spec_float -> Rng -> spec_float * Rng
}.

Record RandomContract (R : RandomSource) : Prop := mk_RandomContract {
  (* [_randbelow(n)]: "a random int in the range [0, n)" *)
  randbelow_range : forall n g, 0 < n -> 0 <= fst (_randbelow R n g) < n;
  (* [uniform(a, b)]: "a random floating-point number N such that
     a <= N <= b for a <= b", relied on in exact ranges only *)
  uniform_range : forall a b g, exact_range a b = true ->
    SFleb a (fst (random_uniform R a b g)) = true /\
    SFleb (fst (random_uniform R a b g)) b = true
}.

Section RandomMethods.

Variable R : RandomSource.

(** Code that draws from a [Random] object: the object's state goes in, a
    value and the new state come out, unless an exception is raised. *)
Definition Gen (A : Type) : Type := Rng R -> result (A * Rng R).

Definition ret {A} (a : A) : Gen A := fun g => Ok (a, g).

Definition raise {A} (e : exn) : Gen A := fun _ => Raise e.

Definition bind {A B} (c : Gen A) (k : A -> Gen B) : Gen B :=
  fun g => match c g with
           | Ok (a, g') => k a g'
           | Raise e => Raise e
           end.

Definition lift {A} (r : result A) : Gen A :=
  fun g => match r with Ok a => Ok (a, g) | Raise e => Raise e end.

Definition prim {A} (f : Rng R -> A * Rng R) : Gen A := fun g => Ok (f g).

(** [[f(i) for i in l]] *)
Fixpoint for_in {A B} (f : A -> Gen B) (l : list A) : Gen (list B) :=
  match l with
  | [] => ret []
  | i :: l' => bind (f i) (fun b => bind (for_in f l') (fun bs => ret (b :: bs)))
  end.

(** [random.randrange(start, stop)] *)
Definition randrange (start stop : Z) : Gen Z :=
  let width := stop - start in
  if width >? 0 then bind (prim (_randbelow R width)) (fun r => ret (start + r))
  else raise (ValueError [Text "empty range in randrange("; Int start; Text ", ";
                          Int stop; Text ")"]).

(** [random.randint(a, b)] *)
Definition randint (a b : Z) : Gen Z := randrange a (b + 1).

(** [random.choice(seq)] *)
Definition choice {A} (sequence : list A) : Gen A :=
  if len sequence =? 0 then raise (IndexError [Text "Cannot choose from an empty sequence"])
  else bind (prim (_randbelow R (len sequence))) (fun i => lift (getitem sequence i)).

(** [random.uniform(a, b)] and [random.random()] *)
Definition uniform (a b : spec_float) : Gen spec_float := prim (random_uniform R a b).
Definition random_ : Gen spec_float := prim (random_random R).

End RandomMethods.

Arguments ret {R A} a.
Arguments raise {R A} e.
Arguments bind {R A B} c k.
Arguments lift {R A} r.
Arguments for_in {R A B} f l.
Arguments choice {R A} sequence.

Notation "x <- c ;; k" := (bind c (fun x => k))
  (at level 61, c at next level, right associativity).

(** Statements that may raise, one after the other. *)
Definition result_bind {A B} (r : result A) (k : A -> result B) : result B :=
  match r with Ok a => k a | Raise e => Raise e end.

(** [random.random() > 0.5] and friends compare floats. *)
Definition float_lt (x y : spec_float) : bool := SFltb x y.
Definition float_le (x y : spec_float) : bool := SFleb x y.
Definition float_eq (x y : spec_float) : bool := SFeqb x y.

(** [math.isnan(x)] *)
Definition float_is_nan (x : spec_float) : bool :=
  match x with S754_nan => true | _ => false end.

(** Comparison of the [(latitude, longitude)] keys: the first components
    decide unless they are equal. *)
Definition key_lt (a b : spec_float * spec_float) : bool :=
  if float_eq (fst a) (fst b) then float_lt (snd a) (snd b) else float_lt (fst a) (fst b).

(** [min(iterable, key=key)] and [max(iterable, key=key)]: the first of the
    extremal elements; an empty iterable raises. *)
Fixpoint extremum_from {A} (better : A -> A -> bool) (best : A) (l : list A) : A :=
  match l with
  | [] => best
  | x :: l' => extremum_from better (if better x best then x else best) l'
  end.

Definition min_by {A} (key : A -> spec_float * spec_float) (l : list A) : result A :=
  match l with
  | [] => Raise (ValueError [Text "min() arg is an empty sequence"])
  | x :: l' => Ok (extremum_from (fun a b => key_lt (key a) (key b)) x l')
  end.

Definition max_by {A} (key : A -> spec_float * spec_float) (l : list A) : result A :=
  match l with
  | [] => Raise (ValueError [Text "max() arg is an empty sequence"])
  | x :: l' => Ok (extremum_from (fun a b => key_lt (key b) (key a)) x l')
  end.

(** [date + timedelta]: only the whole days of the span count. *)
Definition date_add (d : date) (span : timedelta) : date := d + span / SECONDS_PER_DAY.

(** ** [demo_data.py] *)

Definition FIRST_NAMES : list string :=
  ["Amy"; "Beth"; "Chad"; "Dan"; "Elsa"; "Flo"; "Gus"; "Hugo"; "Ivy"; "Jay"]%string.
Definition LAST_NAMES : list string :=
  ["Cole"; "Fox"; "Green"; "Jones"; "King"; "Li"; "Poe"; "Rye"; "Smith"; "Watt"]%string.
Definition SERVICE_DURATION_MINUTES : list Z := [10; 20; 30; 40].
Definition MORNING_WINDOW_START := mk_time 8 0.
Definition MORNING_WINDOW_END := mk_time 12 0.
Definition AFTERNOON_WINDOW_START := mk_time 13 0.
Definition AFTERNOON_WINDOW_END := mk_time 18 0.

(** The fixed warehouse location *)
Definition warehouse_latitude : spec_float :=
  Eval vm_compute in Prim2SF 47.57900943093803%float.
Definition warehouse_longitude : spec_float :=
  Eval vm_compute in Prim2SF 5.576702063852337%float.

Definition WAREHOUSE_LOCATION : Location :=
  {| latitude := warehouse_latitude; longitude := warehouse_longitude |}.

(** The float expressions of the [NEW_LOCATION] corners, evaluated in
    binary64 as Python evaluates them. *)
Definition south_latitude : spec_float :=
  Eval vm_compute in Prim2SF (47.57900943093803 - 0.675)%float.
Definition west_longitude : spec_float :=
  Eval vm_compute in Prim2SF (5.576702063852337 - 0.675)%float.
Definition north_latitude : spec_float :=
  Eval vm_compute in Prim2SF (47.57900943093803 + 0.675)%float.
Definition east_longitude : spec_float :=
  Eval vm_compute in Prim2SF (5.576702063852337 + 0.675)%float.

(** The literal [0.5] *)
Definition one_half : spec_float := Eval vm_compute in Prim2SF 0.5%float.

(** The dataclass: its generated [__init__] stores the fields and then runs
    [__post_init__]. *)
Record _DemoDataProperties := mk_DemoDataProperties {
  seed : Z;
  visit_count : Z;
  vehicle_count : Z;
  vehicle_start_time : time;
  min_demand : Z;
  max_demand : Z;
  min_vehicle_capacity : Z;
  max_vehicle_capacity : Z;
  south_west_corner : Location;
  north_east_corner : Location
}.

Definition __post_init__ (self : _DemoDataProperties) : result unit :=
  if min_demand self <? 1 then
    Raise (ValueError [Text "minDemand ("; Int (min_demand self);
                       Text ") must be greater than zero."])
  else if max_demand self <? 1 then
    Raise (ValueError [Text "maxDemand ("; Int (max_demand self);
                       Text ") must be greater than zero."])
  else if min_demand self >=? max_demand self then
    Raise (ValueError [Text "maxDemand ("; Int (max_demand self);
                       Text ") must be greater than minDemand ("; Int (min_demand self);
                       Text ")."])
  else if min_vehicle_capacity self <? 1 then
    Raise (ValueError [Text "Number of minVehicleCapacity ("; Int (min_vehicle_capacity self);
                       Text ") must be greater than zero."])
  else if max_vehicle_capacity self <? 1 then
    Raise (ValueError [Text "Number of maxVehicleCapacity ("; Int (max_vehicle_capacity self);
                       Text ") must be greater than zero."])
  else if min_vehicle_capacity self >=? max_vehicle_capacity self then
    Raise (ValueError [Text "maxVehicleCapacity ("; Int (max_vehicle_capacity self);
                       Text ") must be greater than "; Text "minVehicleCapacity (";
                       Int (min_vehicle_capacity self); Text ")."])
  else if visit_count self <? 1 then
    Raise (ValueError [Text "Number of visitCount ("; Int (visit_count self);
                       Text ") must be greater than zero."])
  else if vehicle_count self <? 1 then
    Raise (ValueError [Text "Number of vehicleCount ("; Int (vehicle_count self);
                       Text ") must be greater than zero."])
  else if float_le (latitude (north_east_corner self)) (latitude (south_west_corner self)) then
    Raise (ValueError [Text "northEastCorner.getLatitude (";
                       Float (latitude (north_east_corner self));
                       Text ") must be greater than "; Text "southWestCorner.getLatitude(";
                       Float (latitude (south_west_corner self)); Text ")."])
  else if float_le (longitude (north_east_corner self)) (longitude (south_west_corner self)) then
    Raise (ValueError [Text "northEastCorner.getLongitude (";
                       Float (longitude (north_east_corner self));
                       Text ") must be greater than "; Text "southWestCorner.getLongitude(";
                       Float (longitude (south_west_corner self)); Text ")."])
  else Ok tt.

(** [_DemoDataProperties(seed=.., ..)]: the instance exists only when
    [__post_init__] returns. *)
Definition new_DemoDataProperties (self : _DemoDataProperties) : result _DemoDataProperties :=
  result_bind (__post_init__ self) (fun _ => Ok self).

Inductive DemoData := NEW_LOCATION.

(** [list(DemoData)] *)
Definition DemoData_members : list DemoData := [NEW_LOCATION].

(** [member.value] *)
Definition DemoData_value (member : DemoData) : _DemoDataProperties :=
  match member with
  | NEW_LOCATION =>
      {| seed := 0;
         visit_count := 200;
         vehicle_count := 50;
         vehicle_start_time := mk_time 7 30;
         min_demand := 2;
         max_demand := 4;
         min_vehicle_capacity := 10;
         max_vehicle_capacity := 15;
         south_west_corner :=
           {| latitude := south_latitude; longitude := west_longitude |};
         north_east_corner :=
           {| latitude := north_latitude; longitude := east_longitude |} |}
  end.

(** The class body of [DemoData]: every member's value is constructed when the
    module is loaded. *)
Definition DemoData_class_body : result (list _DemoDataProperties) :=
  fold_right (fun member acc =>
                result_bind (new_DemoDataProperties (DemoData_value member)) (fun p =>
                result_bind acc (fun ps => Ok (p :: ps))))
             (Ok []) DemoData_members.

(** The calendar as one call sees it: [clock k] is what the [k]-th
    [date.today()] of the call returns, counting from 0. *)
Definition Clock := Z -> date.

Section Generator.

Variable R : RandomSource.

(** The Python generators below all draw from the one [Random] object they
    are given; a definition here is one [next()] of the generator, and the
    draws happen in the order of the [next] calls. *)

Definition doubles (start end_ : spec_float) : Gen R spec_float := uniform R start end_.

Definition ints (start end_ : Z) : Gen R Z := randrange R start end_.

Definition values {A} (sequence : list A) : Gen R A :=
  let start := 0 in
  let end_ := len sequence - 1 in
  i <- randint R start end_ ;;
  lift (getitem sequence i).

Definition generate_names : Gen R string :=
  first <- choice FIRST_NAMES ;;
  last <- choice LAST_NAMES ;;
  ret (first ++ " " ++ last)%string.

(** The closure [random_location] of [generate_demo_data]. *)
Definition random_location (all_lat_lon_ranges : list (Location * Location))
  : Gen R Location :=
  corners <- choice all_lat_lon_ranges ;;
  let (sw, ne) := corners : Location * Location in
  lat <- uniform R (latitude sw) (latitude ne) ;;
  lon <- uniform R (longitude sw) (longitude ne) ;;
  ret {| latitude := lat; longitude := lon |}.

(** One element of the [vehicles] comprehension.  [today] is what the
    [date.today()] of this element returns. *)
Definition new_vehicle (demo_data : _DemoDataProperties) (today : date) (i : Z)
  : Gen R Vehicle :=
  capacity <- ints (min_vehicle_capacity demo_data) (max_vehicle_capacity demo_data + 1) ;;
  ret (Vehicle_init (str i) capacity WAREHOUSE_LOCATION
         (datetime_combine (date_add today (timedelta_days 1))
                           (vehicle_start_time demo_data))).

(** One element of the [visits] comprehension; the keyword arguments are
    evaluated in the order they are written.  The element calls
    [date.today()] twice: [today_start] is what the call made for
    [min_start_time] returns, [today_end] what the call made for
    [max_end_time] returns. *)
Definition new_visit (demo_data : _DemoDataProperties)
  (all_lat_lon_ranges : list (Location * Location)) (today_start today_end : date) (i : Z)
  : Gen R Visit :=
  name <- generate_names ;;
  location <- random_location all_lat_lon_ranges ;;
  demand <- ints (min_demand demo_data) (max_demand demo_data + 1) ;;
  r <- random_ R ;;
  let morning_window := float_lt one_half r in
  let min_start_time :=
    datetime_combine (date_add today_start (timedelta_days 1))
      (if morning_window then MORNING_WINDOW_START else AFTERNOON_WINDOW_START) in
  let max_end_time :=
    datetime_combine (date_add today_end (timedelta_days 1))
      (if morning_window then MORNING_WINDOW_END else AFTERNOON_WINDOW_END) in
  minutes <- values SERVICE_DURATION_MINUTES ;;
  ret (Visit_init (str i) name location demand min_start_time max_end_time
         (timedelta_minutes minutes)).

(** The body of [generate_demo_data] once [demo_data] is bound; [members]
    are the values of the members of [DemoData].  Every vehicle reads the
    clock once and every visit twice, one read after the other: vehicle [i]
    makes read [i], and visit [i], the vehicles being built by then, makes
    the reads [len(vehicles) + 2 * i] and [len(vehicles) + 2 * i + 1]. *)
Definition generate_route_plan (demo_data : _DemoDataProperties)
  (members : list _DemoDataProperties) (clock : Clock) : Gen R VehicleRoutePlan :=
  let name := "demo"%string in
  let all_lat_lon_ranges :=
    map (fun data => (south_west_corner data, north_east_corner data)) members in
  vehicles <- for_in (fun i => new_vehicle demo_data (clock i) i)
                     (range (vehicle_count demo_data)) ;;
  visits <- for_in (fun i => new_visit demo_data all_lat_lon_ranges
                               (clock (len vehicles + 2 * i))
                               (clock (len vehicles + 2 * i + 1)) i)
                   (range (visit_count demo_data)) ;;
  sw <- lift (min_by (fun loc => (latitude loc, longitude loc))
                     (map south_west_corner members)) ;;
  ne <- lift (max_by (fun loc => (latitude loc, longitude loc))
                     (map north_east_corner members)) ;;
  ret {| plan_name := name;
         plan_south_west_corner := sw;
         plan_north_east_corner := ne;
         vehicles := vehicles;
         plan_visits := visits |}.

(** [generate_demo_data(demo_data_enum)], run against a clock.  Without an
    argument the member is chosen with the [random] module's own generator,
    whose state is [module_random]; with one, that state is not touched. *)
Definition generate_demo_data_with_clock (demo_data_enum : option DemoData) (clock : Clock)
  (module_random : Rng R) : result VehicleRoutePlan :=
  result_bind
    (match demo_data_enum with
     | None => result_bind (choice DemoData_members module_random)
                           (fun chosen => Ok (DemoData_value (fst chosen)))
     | Some member => Ok (DemoData_value member)
     end)
    (fun demo_data =>
       let random := Random R (seed demo_data) in
       result_bind
         (generate_route_plan demo_data (map DemoData_value DemoData_members) clock random)
         (fun out => Ok (fst out))).

(** [generate_demo_data(demo_data_enum)] in a call during which the date does
    not change: every [date.today()] returns [today]. *)
Definition generate_demo_data (demo_data_enum : option DemoData) (today : date)
  (module_random : Rng R) : result VehicleRoutePlan :=
  generate_demo_data_with_clock demo_data_enum (fun _ => today) module_random.

End Generator.

Arguments values {R A} sequence.

Definition tomorrow_at (today : date) (local_time : time) : datetime :=
  datetime_combine today local_time.

(** ** A concrete random source

    A linear congruential generator that satisfies [RandomContract]; it is
    used to run the generator on concrete inputs. *)

Definition lcg_step (g : Z) : Z :=
  (6364136223846793005 * g + 1442695040888963407) mod 2 ^ 64.

Definition lcg_bit (g : Z) : bool := Z.even (g / 2 ^ 40).

Definition one_quarter : spec_float := Eval vm_compute in Prim2SF 0.25%float.
Definition three_quarters : spec_float := Eval vm_compute in Prim2SF 0.75%float.

Definition lcg : RandomSource :=
  {| Rng := Z;
     Random := fun seed => lcg_step (seed mod 2 ^ 64);
     _randbelow := fun n g => ((g / 2 ^ 33) mod n, lcg_step g);
     random_random := fun g => (if lcg_bit g then one_quarter else three_quarters, lcg_step g);
     random_uniform := fun a b g => (if lcg_bit g then a else b, lcg_step g) |}.

(** ** Sample data for the examples *)

Definition sample_visit (demand : Z) : Visit :=
  {| visit_id := "0"; visit_name := "Amy Cole"; location := WAREHOUSE_LOCATION;
     demand := demand; min_start_time := 0; max_end_time := 0; service_duration := 0;
     vehicle := None; arrival_time := None |}.

Definition sample_vehicle (capacity : Z) (demands : list Z) : Vehicle :=
  {| vehicle_id := "0"; capacity := capacity; home_location := WAREHOUSE_LOCATION;
     departure_time := 0; visits := map sample_visit demands |}.

Definition sample_plan (vehicles : list Vehicle) (visits : list Visit) : VehicleRoutePlan :=
  {| plan_name := "demo"; plan_south_west_corner := WAREHOUSE_LOCATION;
     plan_north_east_corner := WAREHOUSE_LOCATION;
     vehicles := vehicles; plan_visits := visits |}.

(** A visit whose window closes at [max_end] and that the solver has made
    arrive at [arrival], with the given service duration. *)
Definition timed_visit (min_start max_end duration arrival : Z) : Visit :=
  {| visit_id := "0"; visit_name := "Amy Cole"; location := WAREHOUSE_LOCATION;
     demand := 1; min_start_time := min_start; max_end_time := max_end;
     service_duration := duration; vehicle := Some "0"; arrival_time := Some arrival |}.

(** The number of vehicles that have at least one visit. *)
Definition used_vehicles (vs : list Vehicle) : Z :=
  len (List.filter (fun v => match visits v with [] => false | _ :: _ => true end) vs).

(** ** What the constraints promise *)

(** The penalty of one visit for finishing late, as the specification words
    it: the delay in minutes, on the hard score, when the computed finish is
    after the max end time. *)
Definition late_finish_penalty (visit : Visit) : HardSoftScore :=
  match calculate_departure_time visit with
  | Some finish =>
      if finish >? max_end_time visit
      then HardSoftScore_of (- whole_minutes (finish - max_end_time visit)) 0
      else ZERO
  | None => ZERO
  end.

(** ** What the validation promises *)

(** What a dataset definition must not be: a demand or capacity bound or a
    count below 1, a range that is not increasing, a north-east corner that
    is at or south of, or at or west of, the south-west corner. *)
Definition invalid_definition (self : _DemoDataProperties) : Prop :=
  min_demand self < 1 \/ max_demand self < 1 \/ min_demand self >= max_demand self \/
  min_vehicle_capacity self < 1 \/ max_vehicle_capacity self < 1 \/
  min_vehicle_capacity self >= max_vehicle_capacity self \/
  visit_count self < 1 \/ vehicle_count self < 1 \/
  float_le (latitude (north_east_corner self)) (latitude (south_west_corner self)) = true \/
  float_le (longitude (north_east_corner self)) (longitude (south_west_corner self)) = true.

(** A corner strictly north and east of another one. *)
Definition strictly_north_east (ne sw : Location) : Prop :=
  float_lt (latitude sw) (latitude ne) = true /\
  float_lt (longitude sw) (longitude ne) = true.

(** Both corners have numbers, not NaN, as coordinates. *)
Definition numeric_corners (self : _DemoDataProperties) : Prop :=
  float_is_nan (latitude (south_west_corner self)) = false /\
  float_is_nan (longitude (south_west_corner self)) = false /\
  float_is_nan (latitude (north_east_corner self)) = false /\
  float_is_nan (longitude (north_east_corner self)) = false.

(** A message that names a field of [self] that is at fault, with its value. *)
Inductive names_offence (self : _DemoDataProperties) : message -> Prop :=
| offence_min_demand :
    min_demand self < 1 ->
    names_offence self [Text "minDemand ("; Int (min_demand self);
                        Text ") must be greater than zero."]
| offence_max_demand :
    max_demand self < 1 ->
    names_offence self [Text "maxDemand ("; Int (max_demand self);
                        Text ") must be greater than zero."]
| offence_demand_range :
    min_demand self >= max_demand self ->
    names_offence self [Text "maxDemand ("; Int (max_demand self);
                        Text ") must be greater than minDemand ("; Int (min_demand self);
                        Text ")."]
| offence_min_vehicle_capacity :
    min_vehicle_capacity self < 1 ->
    names_offence self [Text "Number of minVehicleCapacity (";
                        Int (min_vehicle_capacity self);
                        Text ") must be greater than zero."]
| offence_max_vehicle_capacity :
    max_vehicle_capacity self < 1 ->
    names_offence self [Text "Number of maxVehicleCapacity (";
                        Int (max_vehicle_capacity self);
                        Text ") must be greater than zero."]
| offence_vehicle_capacity_range :
    min_vehicle_capacity self >= max_vehicle_capacity self ->
    names_offence self [Text "maxVehicleCapacity ("; Int (max_vehicle_capacity self);
                        Text ") must be greater than "; Text "minVehicleCapacity (";
                        Int (min_vehicle_capacity self); Text ")."]
| offence_visit_count :
    visit_count self < 1 ->
    names_offence self [Text "Number of visitCount ("; Int (visit_count self);
                        Text ") must be greater than zero."]
| offence_vehicle_count :
    vehicle_count self < 1 ->
    names_offence self [Text "Number of vehicleCount ("; Int (vehicle_count self);
                        Text ") must be greater than zero."]
| offence_latitude :
    float_le (latitude (north_east_corner self)) (latitude (south_west_corner self)) = true ->
    names_offence self [Text "northEastCorner.getLatitude (";
                        Float (latitude (north_east_corner self));
                        Text ") must be greater than "; Text "southWestCorner.getLatitude(";
                        Float (latitude (south_west_corner self)); Text ")."]
| offence_longitude :
    float_le (longitude (north_east_corner self)) (longitude (south_west_corner self)) = true ->
    names_offence self [Text "northEastCorner.getLongitude (";
                        Float (longitude (north_east_corner self));
                        Text ") must be greater than "; Text "southWestCorner.getLongitude(";
                        Float (longitude (south_west_corner self)); Text ")."].

(** A dataset definition followed by a generation from the instance it
    yields: two statements in sequence. *)
Definition define_and_generate (R : RandomSource) (self : _DemoDataProperties)
  (members : list _DemoDataProperties) (clock : Clock) : result VehicleRoutePlan :=
  result_bind (new_DemoDataProperties self) (fun demo_data =>
  result_bind (generate_route_plan R demo_data members clock (Random R (seed demo_data)))
              (fun out => Ok (fst out))).

(** The [NEW_LOCATION] definition with the demand range collapsed to 4..4. *)
Definition collapsed_demand_range : _DemoDataProperties :=
  {| seed := 0; visit_count := 200; vehicle_count := 50;
     vehicle_start_time := mk_time 7 30;
     min_demand := 4; max_demand := 4;
     min_vehicle_capacity := 10; max_vehicle_capacity := 15;
     south_west_corner := south_west_corner (DemoData_value NEW_LOCATION);
     north_east_corner := north_east_corner (DemoData_value NEW_LOCATION) |}.

(** ** What the generator promises *)

(** A location inside the rectangle spanned by two corners, borders
    included. *)
Definition within (sw ne loc : Location) : Prop :=
  float_le (latitude sw) (latitude loc) = true /\
  float_le (latitude loc) (latitude ne) = true /\
  float_le (longitude sw) (longitude loc) = true /\
  float_le (longitude loc) (longitude ne) = true.

(** The two service windows, opening on the day after [today_start] and
    closing on the day after [today_end]. *)
Definition morning_window_on (today_start today_end : date) (visit : Visit) : Prop :=
  min_start_time visit = datetime_combine (today_start + 1) MORNING_WINDOW_START /\
  max_end_time visit = datetime_combine (today_end + 1) MORNING_WINDOW_END.

Definition afternoon_window_on (today_start today_end : date) (visit : Visit) : Prop :=
  min_start_time visit = datetime_combine (today_start + 1) AFTERNOON_WINDOW_START /\
  max_end_time visit = datetime_combine (today_end + 1) AFTERNOON_WINDOW_END.

(** The two service windows on the day after [today]. *)
Definition morning_window (today : date) (visit : Visit) : Prop :=
  morning_window_on today today visit.

Definition afternoon_window (today : date) (visit : Visit) : Prop :=
  afternoon_window_on today today visit.

Definition generated_vehicle (demo_data : _DemoDataProperties) (today : date)
  (v : Vehicle) : Prop :=
  min_vehicle_capacity demo_data <= capacity v <= max_vehicle_capacity demo_data /\
  home_location v = WAREHOUSE_LOCATION /\
  departure_time v = datetime_combine (today + 1) (vehicle_start_time demo_data) /\
  visits v = [].

(** A visit as the generator builds it when the two reads of the clock
    return [today_start] and [today_end]; [placed] is what is known of its
    location. *)
Definition generated_visit_on (demo_data : _DemoDataProperties)
  (placed : Location -> Prop) (today_start today_end : date) (visit : Visit) : Prop :=
  min_demand demo_data <= demand visit <= max_demand demo_data /\
  In (service_duration visit) (map timedelta_minutes SERVICE_DURATION_MINUTES) /\
  placed (location visit) /\
  (morning_window_on today_start today_end visit \/
   afternoon_window_on today_start today_end visit) /\
  In (visit_name visit)
     (flat_map (fun first => map (fun last => first ++ " " ++ last)%string LAST_NAMES)
               FIRST_NAMES) /\
  vehicle visit = None /\ arrival_time visit = None.

(** A location inside one of the rectangles. *)
Definition within_some (all_lat_lon_ranges : list (Location * Location))
  (loc : Location) : Prop :=
  exists sw ne, In (sw, ne) all_lat_lon_ranges /\ within sw ne loc.

Definition generated_visit (demo_data : _DemoDataProperties)
  (all_lat_lon_ranges : list (Location * Location)) (today : date) (visit : Visit) : Prop :=
  generated_visit_on demo_data (within_some all_lat_lon_ranges) today today visit.

Definition generated_plan (demo_data : _DemoDataProperties)
  (members : list _DemoDataProperties) (today : date) (plan : VehicleRoutePlan) : Prop :=
  len (vehicles plan) = vehicle_count demo_data /\
  len (plan_visits plan) = visit_count demo_data /\
  Forall (generated_vehicle demo_data today) (vehicles plan) /\
  Forall (generated_visit demo_data
            (map (fun data => (south_west_corner data, north_east_corner data)) members)
            today)
         (plan_visits plan) /\
  map vehicle_id (vehicles plan) = map str (range (vehicle_count demo_data)) /\
  map visit_id (plan_visits plan) = map str (range (visit_count demo_data)).

(** A plan as the generator builds it against a clock: element by element,
    with the reads of the clock each element makes. *)
Definition generated_plan_on (demo_data : _DemoDataProperties)
  (placed : Location -> Prop) (clock : Clock) (plan : VehicleRoutePlan) : Prop :=
  Forall2 (fun i v => generated_vehicle demo_data (clock i) v /\ vehicle_id v = str i)
          (range (vehicle_count demo_data)) (vehicles plan) /\
  Forall2 (fun i visit =>
             generated_visit_on demo_data placed
               (clock (len (vehicles plan) + 2 * i))
               (clock (len (vehicles plan) + 2 * i + 1)) visit /\
             visit_id visit = str i)
          (range (visit_count demo_data)) (plan_visits plan).

(** A computation that returns, from every state of the random source, a
    value with the property [P]. *)
Definition yields {R A} (c : Gen R A) (P : A -> Prop) : Prop :=
  forall g, exists a g', c g = Ok (a, g') /\ P a.

(** The same plan with every date moved by [days]. *)
Definition shift_vehicle (days : Z) (v : Vehicle) : Vehicle :=
  {| vehicle_id := vehicle_id v; capacity := capacity v; home_location := home_location v;
     departure_time := departure_time v + SECONDS_PER_DAY * days;
     visits := visits v |}.

Definition shift_visit (days : Z) (visit : Visit) : Visit :=
  {| visit_id := visit_id visit; visit_name := visit_name visit;
     location := location visit; demand := demand visit;
     min_start_time := min_start_time visit + SECONDS_PER_DAY * days;
     max_end_time := max_end_time visit + SECONDS_PER_DAY * days;
     service_duration := service_duration visit;
     vehicle := vehicle visit; arrival_time := arrival_time visit |}.

Definition shift_plan (days : Z) (plan : VehicleRoutePlan) : VehicleRoutePlan :=
  {| plan_name := plan_name plan;
     plan_south_west_corner := plan_south_west_corner plan;
     plan_north_east_corner := plan_north_east_corner plan;
     vehicles := map (shift_vehicle days) (vehicles plan);
     plan_visits := map (shift_visit days) (plan_visits plan) |}.

Definition result_map {A B} (f : A -> B) (r : result A) : result B :=
  match r with Ok a => Ok (f a) | Raise e => Raise e end.

Definition gen_map {R A B} (f : A -> B) (c : Gen R A) : Gen R B :=
  fun g => result_map (fun out => (f (fst out), snd out)) (c g).

(** The [NEW_LOCATION] definition with NaN as the coordinates of the
    north-east corner. *)
Definition nan_corner : _DemoDataProperties :=
  {| seed := 0; visit_count := 200; vehicle_count := 50;
     vehicle_start_time := mk_time 7 30;
     min_demand := 2; max_demand := 4;
     min_vehicle_capacity := 10; max_vehicle_capacity := 15;
     south_west_corner := south_west_corner (DemoData_value NEW_LOCATION);
     north_east_corner := {| latitude := S754_nan; longitude := S754_nan |} |}.


(** ** Quantities the further properties are stated with *)

(** The sum of a quantity over a list of entities. *)
Definition sum_over {A} (f : A -> Z) (l : list A) : Z :=
  fold_right (fun a acc => f a + acc) 0 l.

(** The number of switches that are on. *)
Definition enabled_count (flags : Flags) : Z :=
  Z.b2z (ENABLE_TIME_WINDOW_CONSTRAINTS flags) + Z.b2z (ENABLE_LOAD_BALANCING flags) +
  Z.b2z (ENABLE_DRIVING_TIME_LIMIT flags) + Z.b2z (ENABLE_MINIMIZE_MAX_LOAD flags) +
  Z.b2z (ENABLE_ENCOURAGE_FULL_UTILIZATION flags) +
  Z.b2z (ENABLE_MINIMIZE_VEHICLE_COUNT flags).

(** A constraint that weighs on the hard score only, or on the soft score
    only. *)
Definition hard_constraint (c : Constraint) : Prop :=
  0 < hard_score (constraint_weight c) /\ soft_score (constraint_weight c) = 0.

Definition soft_constraint (c : Constraint) : Prop :=
  hard_score (constraint_weight c) = 0 /\ 0 < soft_score (constraint_weight c).

(** ** Proof tactics *)

(** Two constraints with different names are different constraints. *)
Ltac name_clash H :=
  apply (f_equal constraint_name) in H; cbv in H; discriminate H.

Ltac not_listed H :=
  simpl in H;
  repeat match type of H with
         | _ \/ _ => destruct H as [H|H]
         | False => destruct H
         | _ = _ => name_clash H
         end.

(** The names in a list of string literals are pairwise different. *)
Ltac distinct_names :=
  repeat (constructor;
          [cbn [In]; intros H;
           repeat match type of H with
                  | _ \/ _ => destruct H as [H|H]
                  | False => destruct H
                  | _ = _ => discriminate H
                  end
          |]);
  try constructor.

(** ** Properties of the score and of the streams *)

Lemma score_add_ZERO_l (a : HardSoftScore) : score_add ZERO a = a.
Proof. destruct a; reflexivity. Qed.

Lemma score_add_ZERO_r (a : HardSoftScore) : score_add a ZERO = a.
Proof. destruct a; unfold score_add; simpl; f_equal; lia. Qed.

Lemma score_add_assoc (a b c : HardSoftScore) :
  score_add a (score_add b c) = score_add (score_add a b) c.
Proof. unfold score_add; simpl; f_equal; lia. Qed.

Lemma score_add_comm (a b : HardSoftScore) : score_add a b = score_add b a.
Proof. unfold score_add; f_equal; lia. Qed.

(** A filtered, weighted stream over the vehicles, one vehicle at a time. *)
Lemma vehicle_stream_cons name weight predicate weigher n sw ne v vs vis :
  let c := for_each the_factory Vehicle |> filter predicate
           |> penalize weight weigher |> as_constraint name in
  constraint_score c (mk_VehicleRoutePlan n sw ne (v :: vs) vis) =
  score_add (if predicate v
             then score_negate (score_multiply weight (weigher v)) else ZERO)
            (constraint_score c (mk_VehicleRoutePlan n sw ne vs vis)).
Proof.
  cbv [constraint_score match_impact as_constraint penalize filter for_each instances
       Vehicle_class match_weights constraint_weight builder_weight builder_matches vehicles].
  simpl. destruct (predicate v); simpl; [reflexivity | now rewrite score_add_ZERO_l].
Qed.

Lemma visit_stream_cons name weight predicate weigher n sw ne vs visit vis :
  let c := for_each the_factory Visit |> filter predicate
           |> penalize weight weigher |> as_constraint name in
  constraint_score c (mk_VehicleRoutePlan n sw ne vs (visit :: vis)) =
  score_add (if predicate visit
             then score_negate (score_multiply weight (weigher visit)) else ZERO)
            (constraint_score c (mk_VehicleRoutePlan n sw ne vs vis)).
Proof.
  cbv [constraint_score match_impact as_constraint penalize filter for_each instances
       Visit_class match_weights constraint_weight builder_weight builder_matches plan_visits].
  simpl. destruct (predicate visit); simpl; [reflexivity | now rewrite score_add_ZERO_l].
Qed.

Lemma whole_minutes_exact (m : Z) : whole_minutes (timedelta_minutes m) = m.
Proof.
  unfold whole_minutes, timedelta_minutes.
  replace (- (60 * m)) with ((- m) * 60) by lia.
  rewrite Z.div_mul by lia. lia.
Qed.

Lemma whole_minutes_pos (span : Z) : 0 < span -> 0 < whole_minutes span.
Proof.
  intros H. unfold whole_minutes.
  assert (- span / 60 < 0) by (apply Z.div_lt_upper_bound; lia). lia.
Qed.

(** C1.  [vehicleCapacity] carries the weight (1 hard, 0 soft).  In any plan a
    vehicle whose total demand exceeds its capacity lowers the hard score by
    total demand minus capacity and leaves the soft score alone; a vehicle
    whose total demand is at most its capacity contributes nothing.  A
    vehicle of capacity 10 with visits of demand 4, 4 and 4 scores -2 hard. *)
Theorem vehicle_capacity_penalty :
  constraint_weight (vehicle_capacity the_factory) = HardSoftScore_of 1 0 /\
  (forall n sw ne v vs vis,
      constraint_score (vehicle_capacity the_factory) (mk_VehicleRoutePlan n sw ne (v :: vs) vis) =
      score_add
        (if calculate_total_demand v >? capacity v
         then HardSoftScore_of (- (calculate_total_demand v - capacity v)) 0
         else ZERO)
        (constraint_score (vehicle_capacity the_factory) (mk_VehicleRoutePlan n sw ne vs vis))) /\
  (forall n sw ne vis,
      constraint_score (vehicle_capacity the_factory) (mk_VehicleRoutePlan n sw ne [] vis) = ZERO) /\
  constraint_score (vehicle_capacity the_factory)
    (sample_plan [sample_vehicle 10 [4; 4; 4]] []) = HardSoftScore_of (-2) 0.
Proof.
  split; [reflexivity|]. split; [|split; reflexivity].
  intros. unfold vehicle_capacity. rewrite vehicle_stream_cons.
  destruct (calculate_total_demand v >? capacity v); [|reflexivity].
  unfold score_negate, score_multiply; simpl. do 2 f_equal.
  destruct (calculate_total_demand v - capacity v); reflexivity.
Qed.

Lemma late_finish_penalty_cons n sw ne vs visit vis :
  constraint_score (service_finished_after_max_end_time the_factory)
    (mk_VehicleRoutePlan n sw ne vs (visit :: vis)) =
  score_add (late_finish_penalty visit)
    (constraint_score (service_finished_after_max_end_time the_factory)
       (mk_VehicleRoutePlan n sw ne vs vis)).
Proof.
  unfold service_finished_after_max_end_time. rewrite visit_stream_cons.
  f_equal. unfold late_finish_penalty, is_service_finished_after_max_end_time,
    service_finished_delay_in_minutes.
  destruct (calculate_departure_time visit) as [finish|]; [|reflexivity].
  destruct (finish >? max_end_time visit); [|reflexivity].
  unfold score_negate, score_multiply; simpl. do 2 f_equal.
  destruct (whole_minutes (finish - max_end_time visit)); reflexivity.
Qed.

(** C2.  [serviceFinishedAfterMaxEndTime] carries the weight (1 hard, 0 soft).
    In any plan a visit contributes its late-finish penalty: nothing when it
    has no computed finish or finishes at or before its max end time, and
    minus the delay in minutes on the hard score when it finishes later; the
    delay of a late visit is positive, a delay of m whole minutes counts m,
    and a visit finishing 7 minutes after its max end time scores -7 hard. *)
Theorem service_finished_after_max_end_time_penalty :
  let c := service_finished_after_max_end_time the_factory in
  constraint_weight c = HardSoftScore_of 1 0 /\
  (forall n sw ne vs visit vis,
      constraint_score c (mk_VehicleRoutePlan n sw ne vs (visit :: vis)) =
      score_add (late_finish_penalty visit)
                (constraint_score c (mk_VehicleRoutePlan n sw ne vs vis))) /\
  (forall visit finish,
      calculate_departure_time visit = Some finish ->
      (finish <= max_end_time visit -> late_finish_penalty visit = ZERO) /\
      (max_end_time visit < finish ->
       hard_score (late_finish_penalty visit) < 0 /\
       soft_score (late_finish_penalty visit) = 0) /\
      (forall m, 0 < m -> finish = max_end_time visit + timedelta_minutes m ->
                 late_finish_penalty visit = HardSoftScore_of (- m) 0)) /\
  (forall max_end duration arrival,
      arrival + duration = max_end + timedelta_minutes 7 ->
      constraint_score c (sample_plan [] [timed_visit arrival max_end duration arrival]) =
      HardSoftScore_of (-7) 0).
Proof.
  intros c. split; [reflexivity|]. split; [exact late_finish_penalty_cons|].
  assert (Hv : forall visit finish,
      calculate_departure_time visit = Some finish ->
      (finish <= max_end_time visit -> late_finish_penalty visit = ZERO) /\
      (max_end_time visit < finish ->
       hard_score (late_finish_penalty visit) < 0 /\
       soft_score (late_finish_penalty visit) = 0) /\
      (forall m, 0 < m -> finish = max_end_time visit + timedelta_minutes m ->
                 late_finish_penalty visit = HardSoftScore_of (- m) 0)).
  { intros visit finish Hf. unfold late_finish_penalty. rewrite Hf.
    repeat split.
    - intros Hle. destruct (Z.gtb_spec finish (max_end_time visit)); [lia | reflexivity].
    - destruct (Z.gtb_spec finish (max_end_time visit)); [simpl | lia].
      pose proof (whole_minutes_pos (finish - max_end_time visit)). lia.
    - destruct (Z.gtb_spec finish (max_end_time visit)); [reflexivity | lia].
    - intros m Hm ->.
      destruct (Z.gtb_spec (max_end_time visit + timedelta_minutes m) (max_end_time visit))
        as [_|Hle]; [|unfold timedelta_minutes in Hle; lia].
      replace (max_end_time visit + timedelta_minutes m - max_end_time visit)
        with (timedelta_minutes m) by lia.
      now rewrite whole_minutes_exact. }
  split; [exact Hv|].
  intros max_end duration arrival Hfin. unfold sample_plan.
  subst c. rewrite late_finish_penalty_cons.
  change (constraint_score _ _) with ZERO. rewrite score_add_ZERO_r.
  refine (proj2 (proj2 (Hv (timed_visit arrival max_end duration arrival)
                           (arrival + duration) _)) 7 _ Hfin); [|lia].
  unfold calculate_departure_time, timed_visit; simpl. now rewrite Z.max_id.
Qed.

(** C2, at a visit whose window closes at noon of day 0 and whose service ends
    at 12:07. *)
Lemma service_finished_after_max_end_time_penalty_witness :
  constraint_score (service_finished_after_max_end_time the_factory)
    (sample_plan [] [timed_visit 42420 43200 1200 42420]) = HardSoftScore_of (-7) 0.
Proof.
  apply (proj2 (proj2 (proj2 service_finished_after_max_end_time_penalty))).
  reflexivity.
Defined.

Lemma minimize_vehicle_count_cons n sw ne v vs vis :
  constraint_score (minimize_vehicle_count the_factory)
    (mk_VehicleRoutePlan n sw ne (v :: vs) vis) =
  score_add (match visits v with [] => ZERO | _ :: _ => HardSoftScore_of 0 (-20) end)
    (constraint_score (minimize_vehicle_count the_factory)
       (mk_VehicleRoutePlan n sw ne vs vis)).
Proof.
  unfold minimize_vehicle_count, penalize_each. rewrite vehicle_stream_cons.
  f_equal. destruct (visits v); reflexivity.
Qed.

Lemma used_vehicles_cons v vs :
  used_vehicles (v :: vs) =
  (match visits v with [] => 0 | _ :: _ => 1 end) + used_vehicles vs.
Proof.
  unfold used_vehicles, len. cbn [List.filter].
  destruct (visits v); cbn [List.length]; lia.
Qed.

Lemma minimize_vehicle_count_total n sw ne vs vis :
  constraint_score (minimize_vehicle_count the_factory) (mk_VehicleRoutePlan n sw ne vs vis) =
  HardSoftScore_of 0 (- (20 * used_vehicles vs)).
Proof.
  induction vs as [|v vs IH]; [reflexivity|].
  rewrite minimize_vehicle_count_cons, IH, used_vehicles_cons.
  destruct (visits v); unfold score_add, ZERO; cbn [hard_score soft_score]; f_equal; lia.
Qed.

(** C3.  [minimizeVehicleCount] carries the flat weight (0 hard, 20 soft).  A
    vehicle without visits contributes nothing and a vehicle with visits
    lowers the soft score by 20 whatever it carries, so a plan scores minus 20
    times the number of vehicles in use; with 5 vehicles of which 3 are in
    use, that is 3 times 20. *)
Theorem minimize_vehicle_count_penalty :
  let c := minimize_vehicle_count the_factory in
  constraint_weight c = HardSoftScore_of 0 20 /\
  (forall n sw ne v vs vis,
      constraint_score c (mk_VehicleRoutePlan n sw ne (v :: vs) vis) =
      score_add (match visits v with [] => ZERO | _ :: _ => HardSoftScore_of 0 (-20) end)
                (constraint_score c (mk_VehicleRoutePlan n sw ne vs vis))) /\
  (forall n sw ne vs vis,
      constraint_score c (mk_VehicleRoutePlan n sw ne vs vis) =
      HardSoftScore_of 0 (- (20 * used_vehicles vs))) /\
  (forall n sw ne vs vis,
      len vs = 5 -> used_vehicles vs = 3 ->
      constraint_score c (mk_VehicleRoutePlan n sw ne vs vis) = HardSoftScore_of 0 (- (3 * 20))).
Proof.
  intros c. split; [reflexivity|].
  split; [exact minimize_vehicle_count_cons|].
  split; [exact minimize_vehicle_count_total|].
  intros n sw ne vs vis _ Hused. subst c.
  now rewrite minimize_vehicle_count_total, Hused.
Qed.

(** C3, at a plan of five vehicles: three carry 1, 12 and 30 units, two are
    idle. *)
Lemma minimize_vehicle_count_penalty_witness :
  constraint_score (minimize_vehicle_count the_factory)
    (sample_plan [sample_vehicle 10 [1]; sample_vehicle 10 []; sample_vehicle 10 [4; 4; 4];
                  sample_vehicle 10 []; sample_vehicle 10 [10; 20]] []) =
  HardSoftScore_of 0 (-60).
Proof.
  apply (proj2 (proj2 (proj2 minimize_vehicle_count_penalty))); reflexivity.
Defined.

Section DrivingTime.

Variable driving_time : Vehicle -> Z.

(** C4.  [limitDrivingTime] carries the weight (1 hard, 0 soft) and the
    ceiling is 10800 seconds.  In any plan a vehicle whose total driving
    time exceeds the ceiling lowers the hard score by the seconds over the
    ceiling; a vehicle at or below the ceiling contributes nothing. *)
Theorem limit_driving_time_penalty :
  let c := limit_driving_time driving_time the_factory in
  DRIVING_TIME_LIMIT_SECONDS = 10800 /\
  constraint_weight c = HardSoftScore_of 1 0 /\
  (forall n sw ne v vs vis,
      constraint_score c (mk_VehicleRoutePlan n sw ne (v :: vs) vis) =
      score_add
        (if total_driving_time_seconds driving_time v >? 10800
         then HardSoftScore_of (- (total_driving_time_seconds driving_time v - 10800)) 0
         else ZERO)
        (constraint_score c (mk_VehicleRoutePlan n sw ne vs vis))) /\
  (forall n sw ne vis, constraint_score c (mk_VehicleRoutePlan n sw ne [] vis) = ZERO).
Proof.
  intros c. split; [reflexivity|]. split; [reflexivity|]. split; [|reflexivity].
  intros. subst c. unfold limit_driving_time. rewrite vehicle_stream_cons.
  change DRIVING_TIME_LIMIT_SECONDS with 10800.
  destruct (total_driving_time_seconds driving_time v >? 10800); [|reflexivity].
  unfold score_negate, score_multiply; simpl. do 2 f_equal.
  destruct (total_driving_time_seconds driving_time v - 10800); reflexivity.
Qed.

End DrivingTime.

Section DefineConstraints.

Variable driving_time : Vehicle -> Z.

Let constraints (flags : Flags) : list Constraint :=
  define_constraints driving_time flags the_factory.

(** The names of the constraints the module's own switches select, in the
    order of the list. *)
Lemma define_constraints_module_flags :
  map constraint_name (constraints module_flags) =
  [VEHICLE_CAPACITY; SERVICE_FINISHED_AFTER_MAX_END_TIME; MINIMIZE_TRAVEL_TIME;
   MINIMIZE_VEHICLE_COUNT].
Proof. reflexivity. Qed.

(** C5.  Whatever the switches, the list [define_constraints] returns holds
    the vehicle-capacity and the minimize-travel-time constraints, and it
    holds each of the six other constraints exactly when the switch of that
    constraint is on. *)
Theorem define_constraints_flags (flags : Flags) :
  In (vehicle_capacity the_factory) (constraints flags) /\
  In (minimize_travel_time driving_time the_factory) (constraints flags) /\
  (In (service_finished_after_max_end_time the_factory) (constraints flags) <->
   ENABLE_TIME_WINDOW_CONSTRAINTS flags = true) /\
  (In (limit_driving_time driving_time the_factory) (constraints flags) <->
   ENABLE_DRIVING_TIME_LIMIT flags = true) /\
  (In (balance_load the_factory) (constraints flags) <->
   ENABLE_LOAD_BALANCING flags = true) /\
  (In (minimize_max_load the_factory) (constraints flags) <->
   ENABLE_MINIMIZE_MAX_LOAD flags = true) /\
  (In (encourage_full_utilization the_factory) (constraints flags) <->
   ENABLE_ENCOURAGE_FULL_UTILIZATION flags = true) /\
  (In (minimize_vehicle_count the_factory) (constraints flags) <->
   ENABLE_MINIMIZE_VEHICLE_COUNT flags = true).
Proof.
  destruct flags as [[] [] [] [] [] []];
    unfold constraints, define_constraints, append_if;
    cbn [ENABLE_TIME_WINDOW_CONSTRAINTS ENABLE_LOAD_BALANCING ENABLE_DRIVING_TIME_LIMIT
         ENABLE_MINIMIZE_MAX_LOAD ENABLE_ENCOURAGE_FULL_UTILIZATION
         ENABLE_MINIMIZE_VEHICLE_COUNT app];
    repeat match goal with
           | |- _ /\ _ => split
           | |- _ <-> _ => split; intros H
           | |- true = true => reflexivity
           | |- In _ _ => simpl; tauto
           | H : false = true |- _ => discriminate H
           | H : In _ _ |- _ => exfalso; not_listed H
           end.
Qed.

End DefineConstraints.

(** C5, at the switches the module sets: the time-window constraint is in the
    list and the driving-time limit is not. *)
Lemma define_constraints_flags_witness :
  In (service_finished_after_max_end_time the_factory)
     (define_constraints (fun _ => 0) module_flags the_factory) /\
  ~ In (limit_driving_time (fun _ => 0) the_factory)
       (define_constraints (fun _ => 0) module_flags the_factory).
Proof.
  pose proof (define_constraints_flags (fun _ => 0) module_flags) as (_ & _ & Htw & Hdt & _).
  split.
  - apply Htw. reflexivity.
  - intros Hin. apply Hdt in Hin. discriminate Hin.
Defined.

(** ** Validation of a dataset definition *)

(** Among numbers, "not less than" is "greater than or equal to". *)
Lemma float_not_lt (a b : spec_float) :
  float_is_nan a = false -> float_is_nan b = false ->
  float_lt a b = false -> float_le b a = true.
Proof.
  unfold float_lt, float_le, SFltb, SFleb, SFcompare.
  destruct a as [sa|sa| |sa ma ea], b as [sb|sb| |sb mb eb]; simpl; try discriminate;
    try (destruct sa; try destruct sb; simpl; intros; congruence);
    try (destruct sb; simpl; intros; congruence).
  intros _ _.
  change (PosDef.Pos.compare_cont Eq mb ma) with (Pos.compare mb ma).
  change (PosDef.Pos.compare_cont Eq ma mb) with (Pos.compare ma mb).
  rewrite (Z.compare_antisym ea eb), (Pos.compare_antisym ma mb).
  destruct sa, sb; try (intros; congruence);
    destruct (ea ?= eb)%Z; simpl; try congruence;
    destruct (ma ?= mb)%positive; simpl; congruence.
Qed.

Lemma not_north_east_invalid (self : _DemoDataProperties) :
  numeric_corners self ->
  ~ strictly_north_east (north_east_corner self) (south_west_corner self) ->
  invalid_definition self.
Proof.
  intros (Hswlat & Hswlon & Hnelat & Hnelon) Hnot.
  unfold invalid_definition, strictly_north_east in *.
  destruct (float_lt (latitude (south_west_corner self)) (latitude (north_east_corner self)))
    eqn:Hlat.
  - destruct (float_lt (longitude (south_west_corner self))
                       (longitude (north_east_corner self))) eqn:Hlon.
    + exfalso. apply Hnot. auto.
    + do 9 right. now apply float_not_lt.
  - do 8 right. left. now apply float_not_lt.
Qed.

Lemma post_init_cases (self : _DemoDataProperties) :
  (__post_init__ self = Ok tt /\ ~ invalid_definition self) \/
  (exists msg, __post_init__ self = Raise (ValueError msg) /\ names_offence self msg).
Proof.
  unfold __post_init__, invalid_definition.
  destruct (Z.ltb_spec (min_demand self) 1);
    [right; eexists; split; [reflexivity | constructor; first [assumption | lia]]|].
  destruct (Z.ltb_spec (max_demand self) 1);
    [right; eexists; split; [reflexivity | constructor; first [assumption | lia]]|].
  destruct (Z.geb_spec (min_demand self) (max_demand self));
    [right; eexists; split; [reflexivity | constructor; first [assumption | lia]]|].
  destruct (Z.ltb_spec (min_vehicle_capacity self) 1);
    [right; eexists; split; [reflexivity | constructor; first [assumption | lia]]|].
  destruct (Z.ltb_spec (max_vehicle_capacity self) 1);
    [right; eexists; split; [reflexivity | constructor; first [assumption | lia]]|].
  destruct (Z.geb_spec (min_vehicle_capacity self) (max_vehicle_capacity self));
    [right; eexists; split; [reflexivity | constructor; first [assumption | lia]]|].
  destruct (Z.ltb_spec (visit_count self) 1);
    [right; eexists; split; [reflexivity | constructor; first [assumption | lia]]|].
  destruct (Z.ltb_spec (vehicle_count self) 1);
    [right; eexists; split; [reflexivity | constructor; first [assumption | lia]]|].
  destruct (float_le (latitude (north_east_corner self)) (latitude (south_west_corner self)))
    eqn:Hlat; [right; eexists; split; [reflexivity | constructor; first [assumption | lia]]|].
  destruct (float_le (longitude (north_east_corner self)) (longitude (south_west_corner self)))
    eqn:Hlon; [right; eexists; split; [reflexivity | constructor; first [assumption | lia]]|].
  left. split; [reflexivity|]. intuition (try lia; try discriminate).
Qed.

(** C6.  Constructing a dataset definition that is invalid raises a
    [ValueError] whose message names a field at fault and its value; no
    instance comes into being, so whatever follows the construction, the
    generation of vehicles and visits in particular, does not run and no
    route plan is returned.  A definition whose north-east corner is not
    strictly north and east of its south-west corner is invalid (the
    coordinates being numbers), as is one with [min_demand >= max_demand], a
    bound or a count below 1, or [min_vehicle_capacity >=
    max_vehicle_capacity].  A valid definition is constructed unchanged. *)
Theorem invalid_definition_raises (self : _DemoDataProperties) :
  (numeric_corners self ->
   ~ strictly_north_east (north_east_corner self) (south_west_corner self) ->
   invalid_definition self) /\
  (invalid_definition self ->
   exists msg,
     new_DemoDataProperties self = Raise (ValueError msg) /\
     names_offence self msg /\
     (forall A (rest : _DemoDataProperties -> result A),
         result_bind (new_DemoDataProperties self) rest = Raise (ValueError msg)) /\
     (forall R members today,
         define_and_generate R self members today = Raise (ValueError msg))) /\
  (~ invalid_definition self -> new_DemoDataProperties self = Ok self).
Proof.
  split; [apply not_north_east_invalid|].
  unfold define_and_generate, new_DemoDataProperties.
  destruct (post_init_cases self) as [[Hok Hvalid] | (msg & Hraise & Hnames)].
  - split; [intros Hbad; contradiction|]. intros _. now rewrite Hok.
  - split.
    + intros _. exists msg. rewrite Hraise. simpl. repeat split; auto.
    + intros Hvalid. exfalso. apply Hvalid.
      unfold invalid_definition. inversion Hnames; tauto.
Qed.

(** C6, at a definition with [min_demand = max_demand = 4]. *)
Lemma invalid_definition_raises_witness :
  invalid_definition collapsed_demand_range /\
  define_and_generate lcg collapsed_demand_range [collapsed_demand_range] (fun _ => 739000) =
  Raise (ValueError [Text "maxDemand ("; Int 4; Text ") must be greater than minDemand (";
                     Int 4; Text ")."]).
Proof.
  assert (Hbad : invalid_definition collapsed_demand_range).
  { unfold invalid_definition; simpl. right; right; left. lia. }
  split; [exact Hbad|].
  destruct (proj1 (proj2 (invalid_definition_raises collapsed_demand_range)) Hbad)
    as (msg & Hnew & _ & _ & Hgen).
  rewrite Hgen. vm_compute in Hnew. now inversion Hnew.
Defined.

(** C6 as stated fails: the north-east corner of [nan_corner] is not strictly
    north and east of its south-west corner, and yet the definition is
    constructed and no [ValueError] is raised. *)
Lemma nan_corner_is_constructed :
  ~ strictly_north_east (north_east_corner nan_corner) (south_west_corner nan_corner) /\
  new_DemoDataProperties nan_corner = Ok nan_corner.
Proof.
  split; [|reflexivity].
  intros [Hlat _]. vm_compute in Hlat. discriminate Hlat.
Qed.

(** ** The random source and the monad *)

Lemma float_le_refl_l a b : float_le a b = true -> float_le a a = true.
Proof.
  unfold float_le, SFleb, SFcompare.
  destruct a as [s|s| |s m e]; simpl; auto.
  - destruct s; auto.
  - destruct s; rewrite Z.compare_refl, Pos.compare_refl; reflexivity.
Qed.

Lemma float_le_refl_r a b : float_le a b = true -> float_le b b = true.
Proof.
  unfold float_le, SFleb, SFcompare.
  destruct b as [s|s| |s m e]; simpl; auto.
  - destruct s; auto.
  - destruct a as [?|[]| |[]]; simpl; discriminate.
  - destruct s; rewrite Z.compare_refl, Pos.compare_refl; reflexivity.
Qed.

Lemma exact_range_le (a b : spec_float) : exact_range a b = true -> float_le a b = true.
Proof.
  unfold exact_range, float_le. intros H.
  apply andb_prop in H. destruct H as [H _].
  apply andb_prop in H. now destruct H as [_ H].
Qed.

Lemma lcg_contract : RandomContract lcg.
Proof.
  split.
  - intros n g Hn. simpl. apply Z.mod_pos_bound. exact Hn.
  - intros a b g Hab. apply exact_range_le in Hab. simpl.
    destruct (lcg_bit g); split; auto; eauto using float_le_refl_l, float_le_refl_r.
Qed.

Section MonadLemmas.

Context {R : RandomSource}.

Lemma yields_ret {A} (a : A) (P : A -> Prop) : P a -> yields (R := R) (ret a) P.
Proof. intros Ha g. exists a, g. split; [reflexivity | exact Ha]. Qed.

Lemma yields_bind {A B} (c : Gen R A) (k : A -> Gen R B) (P : A -> Prop) (Q : B -> Prop) :
  yields c P -> (forall a, P a -> yields (k a) Q) -> yields (bind c k) Q.
Proof.
  intros Hc Hk g. destruct (Hc g) as (a & g' & Hg & Ha).
  destruct (Hk a Ha g') as (b & g'' & Hg' & Hb).
  exists b, g''. unfold bind. rewrite Hg. split; assumption.
Qed.

Lemma yields_lift {A} (r : result A) (a : A) (P : A -> Prop) :
  r = Ok a -> P a -> yields (R := R) (lift r) P.
Proof. intros -> Ha g. exists a, g. split; [reflexivity | exact Ha]. Qed.

Lemma yields_for_in {A B} (f : A -> Gen R B) (P : A -> B -> Prop) (l : list A) :
  (forall i, In i l -> yields (f i) (P i)) ->
  yields (for_in f l) (fun bs => Forall2 P l bs).
Proof.
  induction l as [|i l IH]; intros Hf.
  - apply yields_ret. constructor.
  - cbn [for_in]. eapply yields_bind; [apply Hf; now left|].
    intros b Hb. eapply yields_bind; [apply IH; intros; apply Hf; now right|].
    intros bs Hbs. apply yields_ret. now constructor.
Qed.

Lemma bind_ext {A B} (c : Gen R A) (k1 k2 : A -> Gen R B) g :
  (forall a g', k1 a g' = k2 a g') -> bind c k1 g = bind c k2 g.
Proof. intros H. unfold bind. destruct (c g) as [[a g']|e]; auto. Qed.

Lemma gen_map_bind {A B C} (h : B -> C) (c : Gen R A) (k : A -> Gen R B) g :
  gen_map h (bind c k) g = bind c (fun a => gen_map h (k a)) g.
Proof. unfold gen_map, bind. destruct (c g) as [[a g']|e]; reflexivity. Qed.

Lemma gen_map_ret {A B} (h : A -> B) (a : A) g : gen_map (R := R) h (ret a) g = ret (h a) g.
Proof. reflexivity. Qed.

Lemma for_in_gen_map {A B} (h : B -> B) (f1 f2 : A -> Gen R B) (l : list A) :
  (forall i g, f2 i g = gen_map h (f1 i) g) ->
  forall g, for_in f2 l g = gen_map (map h) (for_in f1 l) g.
Proof.
  intros Hf. induction l as [|i l IH]; intros g; [reflexivity|].
  cbn [for_in]. rewrite gen_map_bind. unfold bind at 1 3. rewrite Hf.
  unfold gen_map at 1. destruct (f1 i g) as [[b g']|e]; simpl; [|reflexivity].
  rewrite gen_map_bind. unfold bind. rewrite IH.
  unfold gen_map. destruct (for_in f1 l g') as [[bs g'']|e]; reflexivity.
Qed.

End MonadLemmas.

(** ** The library methods under the contract *)

Lemma getitem_in_range {A} (sequence : list A) (i : Z) :
  0 <= i < len sequence -> exists x, getitem sequence i = Ok x /\ In x sequence.
Proof.
  intros Hi. unfold getitem.
  destruct (Z.ltb_spec i 0); [lia|].
  destruct (Z.ltb_spec i 0); [lia|].
  destruct (nth_error sequence (Z.to_nat i)) as [x|] eqn:Hx.
  - exists x. split; [reflexivity|]. eapply nth_error_In; eauto.
  - apply nth_error_None in Hx. unfold len in Hi. lia.
Qed.

Section LibraryMethods.

Variable R : RandomSource.
Hypothesis contract : RandomContract R.

Lemma yields_randrange (start stop : Z) :
  start < stop -> yields (randrange R start stop) (fun r => start <= r < stop).
Proof.
  intros Hlt g. unfold randrange.
  destruct (Z.gtb_spec (stop - start) 0); [|lia].
  unfold bind, prim, ret.
  destruct (_randbelow R (stop - start) g) as [r g'] eqn:Hr.
  exists (start + r), g'. split; [reflexivity|].
  pose proof (randbelow_range R contract (stop - start) g) as Hrange.
  rewrite Hr in Hrange. simpl in Hrange. lia.
Qed.

Lemma yields_choice {A} (sequence : list A) :
  sequence <> [] -> yields (R := R) (choice sequence) (fun x => In x sequence).
Proof.
  intros Hne g. unfold choice.
  assert (Hlen : 0 < len sequence) by (destruct sequence; [congruence | unfold len; simpl; lia]).
  destruct (Z.eqb_spec (len sequence) 0); [lia|].
  unfold bind, prim. destruct (_randbelow R (len sequence) g) as [i g'] eqn:Hi.
  pose proof (randbelow_range R contract (len sequence) g Hlen) as Hrange.
  rewrite Hi in Hrange. simpl in Hrange.
  destruct (getitem_in_range sequence i Hrange) as (x & Hx & Hin).
  exists x, g'. unfold lift. rewrite Hx. auto.
Qed.

Lemma yields_values {A} (sequence : list A) :
  sequence <> [] -> yields (R := R) (values sequence) (fun x => In x sequence).
Proof.
  intros Hne. unfold values, randint.
  assert (Hlen : 0 < len sequence) by (destruct sequence; [congruence | unfold len; simpl; lia]).
  eapply yields_bind; [apply yields_randrange; lia|].
  intros i Hi. simpl in Hi.
  destruct (getitem_in_range sequence i) as (x & Hx & Hin); [lia|].
  eapply yields_lift; eauto.
Qed.

Lemma yields_uniform (a b : spec_float) :
  exact_range a b = true ->
  yields (uniform R a b) (fun x => float_le a x = true /\ float_le x b = true).
Proof.
  intros Hab g. unfold uniform, prim.
  destruct (random_uniform R a b g) as [x g'] eqn:Hx.
  exists x, g'. split; [reflexivity|].
  pose proof (uniform_range R contract a b g Hab) as Hrange.
  now rewrite Hx in Hrange.
Qed.

Lemma yields_random_ : yields (random_ R) (fun _ => True).
Proof.
  intros g. unfold random_, prim. destruct (random_random R g) as [x g'].
  exists x, g'. auto.
Qed.

End LibraryMethods.

(** ** The generator *)

Lemma post_init_valid (self : _DemoDataProperties) :
  __post_init__ self = Ok tt ->
  1 <= min_demand self < max_demand self /\
  1 <= min_vehicle_capacity self < max_vehicle_capacity self /\
  1 <= visit_count self /\ 1 <= vehicle_count self.
Proof.
  intros Hok. destruct (post_init_cases self) as [[_ Hvalid] | (msg & Hraise & _)].
  - unfold invalid_definition in Hvalid. lia.
  - congruence.
Qed.

Lemma date_add_one_day (d : date) : date_add d (timedelta_days 1) = d + 1.
Proof. reflexivity. Qed.

Lemma len_range (n : Z) : 0 <= n -> len (range n) = n.
Proof.
  intros Hn. unfold len, range. rewrite length_map, length_seq. lia.
Qed.

Lemma Forall2_generated {A B C} (P : B -> Prop) (key : B -> C) (f : A -> C)
  (l : list A) (bs : list B) :
  Forall2 (fun i b => P b /\ key b = f i) l bs ->
  len bs = len l /\ Forall P bs /\ map key bs = map f l.
Proof.
  unfold len. induction 1 as [|i b l bs [HP Hkey] _ (Hlen & Hall & Hmap)]; simpl.
  - auto.
  - repeat split; [lia | now constructor | congruence].
Qed.

Lemma in_full_names (first last : string) :
  In first FIRST_NAMES -> In last LAST_NAMES ->
  In (first ++ " " ++ last)%string
     (flat_map (fun first => map (fun last => first ++ " " ++ last)%string LAST_NAMES)
               FIRST_NAMES).
Proof.
  intros Hf Hl. apply in_flat_map. exists first. split; [exact Hf|].
  apply in_map_iff. exists last. auto.
Qed.

Section GeneratorProperties.

Variable R : RandomSource.
Hypothesis contract : RandomContract R.

Variable demo_data : _DemoDataProperties.
Hypothesis constructed : __post_init__ demo_data = Ok tt.

Variable all_lat_lon_ranges : list (Location * Location).
Variable placed : Location -> Prop.
Hypothesis located : yields (random_location R all_lat_lon_ranges) placed.

Lemma yields_new_vehicle (today : date) (i : Z) :
  yields (new_vehicle R demo_data today i)
         (fun v => generated_vehicle demo_data today v /\ vehicle_id v = str i).
Proof.
  destruct (post_init_valid _ constructed) as (_ & Hcap & _).
  unfold new_vehicle, ints.
  eapply yields_bind; [apply (yields_randrange R contract); lia|].
  intros units Hunits. simpl in Hunits. apply yields_ret.
  unfold generated_vehicle, Vehicle_init; simpl. rewrite date_add_one_day.
  repeat split; auto; lia.
Qed.

Lemma yields_generate_names :
  yields (generate_names R)
         (fun name => In name
            (flat_map (fun first => map (fun last => first ++ " " ++ last)%string LAST_NAMES)
                      FIRST_NAMES)).
Proof.
  unfold generate_names.
  eapply yields_bind; [apply (yields_choice R contract); discriminate|].
  intros first Hf. eapply yields_bind; [apply (yields_choice R contract); discriminate|].
  intros last Hl. apply yields_ret. now apply in_full_names.
Qed.

Lemma yields_new_visit (today_start today_end : date) (i : Z) :
  yields (new_visit R demo_data all_lat_lon_ranges today_start today_end i)
         (fun visit => generated_visit_on demo_data placed today_start today_end visit /\
                       visit_id visit = str i).
Proof.
  destruct (post_init_valid _ constructed) as (Hdem & _).
  unfold new_visit, ints.
  eapply yields_bind; [apply yields_generate_names|]. intros name Hname.
  eapply yields_bind; [apply located|]. intros loc Hloc.
  eapply yields_bind; [apply (yields_randrange R contract); lia|].
  intros units Hunits. simpl in Hunits.
  eapply yields_bind; [apply yields_random_|]. intros r _.
  eapply yields_bind; [apply (yields_values R contract); discriminate|].
  intros minutes Hm. apply yields_ret.
  unfold generated_visit_on, morning_window_on, afternoon_window_on, Visit_init.
  cbn [visit_id visit_name location demand min_start_time max_end_time service_duration
       vehicle arrival_time].
  rewrite !date_add_one_day.
  repeat split; auto; try lia.
  - now apply in_map.
  - destruct (float_lt one_half r); auto.
Qed.

End GeneratorProperties.

(** Where the rectangles are exact ranges, a random location lies in one of
    them. *)
Lemma yields_random_location (R : RandomSource) (contract : RandomContract R)
  (all_lat_lon_ranges : list (Location * Location)) :
  all_lat_lon_ranges <> [] ->
  (forall sw ne, In (sw, ne) all_lat_lon_ranges ->
     exact_range (latitude sw) (latitude ne) = true /\
     exact_range (longitude sw) (longitude ne) = true) ->
  yields (random_location R all_lat_lon_ranges) (within_some all_lat_lon_ranges).
Proof.
  intros some_range exact_corners. unfold random_location.
  eapply yields_bind; [apply (yields_choice R contract); exact some_range|].
  intros [sw ne] Hin. simpl in Hin.
  destruct (exact_corners sw ne Hin) as [Hlat Hlon].
  eapply yields_bind; [apply (yields_uniform R contract); exact Hlat|].
  intros lat [Hlat1 Hlat2]. simpl in Hlat1, Hlat2.
  eapply yields_bind; [apply (yields_uniform R contract); exact Hlon|].
  intros lon [Hlon1 Hlon2]. simpl in Hlon1, Hlon2.
  apply yields_ret. exists sw, ne. unfold within; simpl. auto.
Qed.


Lemma yields_generate_route_plan (R : RandomSource) (contract : RandomContract R)
  (demo_data : _DemoDataProperties) (members : list _DemoDataProperties)
  (placed : Location -> Prop) (clock : Clock) :
  __post_init__ demo_data = Ok tt ->
  members <> [] ->
  yields (random_location R
            (map (fun data => (south_west_corner data, north_east_corner data)) members))
         placed ->
  yields (generate_route_plan R demo_data members clock)
         (generated_plan_on demo_data placed clock).
Proof.
  intros Hok Hsome Hplaced.
  unfold generate_route_plan.
  set (ranges := map (fun data => (south_west_corner data, north_east_corner data)) members)
    in *.
  eapply yields_bind.
  { apply yields_for_in. intros i _. now apply (yields_new_vehicle R contract demo_data Hok). }
  intros vs Hvs.
  eapply yields_bind.
  { apply yields_for_in. intros i _.
    now apply (yields_new_visit R contract demo_data Hok ranges placed Hplaced). }
  intros vis Hvis.
  destruct members as [|data members']; [congruence|].
  eapply yields_bind with (P := fun _ => True);
    [eapply yields_lift; [reflexivity | exact I]|]. intros sw _.
  eapply yields_bind with (P := fun _ => True);
    [eapply yields_lift; [reflexivity | exact I]|]. intros ne _.
  apply yields_ret. unfold generated_plan_on; cbn [vehicles plan_visits]. split; assumption.
Qed.

(** A plan built while the date does not change. *)
Lemma generated_plan_one_day (demo_data : _DemoDataProperties)
  (members : list _DemoDataProperties) (today : date) (plan : VehicleRoutePlan) :
  __post_init__ demo_data = Ok tt ->
  generated_plan_on demo_data
    (within_some (map (fun data => (south_west_corner data, north_east_corner data)) members))
    (fun _ => today) plan ->
  generated_plan demo_data members today plan.
Proof.
  intros Hok [Hvs Hvis].
  destruct (post_init_valid _ Hok) as (_ & _ & Hvisits & Hvehicles).
  apply (Forall2_generated _ vehicle_id str) in Hvs.
  destruct Hvs as (Hvlen & Hvall & Hvids).
  apply (Forall2_generated
           (generated_visit demo_data
              (map (fun data => (south_west_corner data, north_east_corner data)) members)
              today) visit_id str) in Hvis.
  destruct Hvis as (Hlen & Hall & Hids).
  unfold generated_plan. rewrite Hvlen, Hlen, !len_range by lia.
  repeat split; auto.
Qed.

(** The class body of [DemoData] runs without raising: the module loads. *)
Lemma DemoData_class_body_ok :
  DemoData_class_body = Ok (map DemoData_value DemoData_members).
Proof. reflexivity. Qed.

Lemma DemoData_post_init (member : DemoData) : __post_init__ (DemoData_value member) = Ok tt.
Proof. destruct member. reflexivity. Qed.

(** The rectangles of the datasets are exact ranges. *)
Lemma DemoData_corners (sw ne : Location) :
  In (sw, ne)
     (map (fun data => (south_west_corner data, north_east_corner data))
          (map DemoData_value DemoData_members)) ->
  exact_range (latitude sw) (latitude ne) = true /\
  exact_range (longitude sw) (longitude ne) = true.
Proof.
  simpl. intros [[= <- <-] | []]. split; vm_compute; reflexivity.
Qed.

(** Every call of [generate_demo_data], whatever the clock does, returns a
    plan, generated from the member that was named or, without a name, from
    one of the members. *)
Lemma generate_demo_data_with_clock_plan (R : RandomSource) (contract : RandomContract R)
  (demo_data_enum : option DemoData) (clock : Clock) (module_random : Rng R) :
  exists member plan,
    (forall chosen, demo_data_enum = Some chosen -> member = chosen) /\
    generate_demo_data_with_clock R demo_data_enum clock module_random = Ok plan /\
    generated_plan_on (DemoData_value member)
      (within_some (map (fun data => (south_west_corner data, north_east_corner data))
                        (map DemoData_value DemoData_members)))
      clock plan.
Proof.
  assert (Hrun : forall member, exists plan,
             result_bind
               (generate_route_plan R (DemoData_value member)
                  (map DemoData_value DemoData_members) clock
                  (Random R (seed (DemoData_value member))))
               (fun out => Ok (fst out)) = Ok plan /\
             generated_plan_on (DemoData_value member)
               (within_some (map (fun data => (south_west_corner data, north_east_corner data))
                                 (map DemoData_value DemoData_members)))
               clock plan).
  { intros member.
    assert (Hyields : yields (generate_route_plan R (DemoData_value member)
                                (map DemoData_value DemoData_members) clock)
                             (generated_plan_on (DemoData_value member)
                                (within_some
                                   (map (fun data =>
                                           (south_west_corner data, north_east_corner data))
                                        (map DemoData_value DemoData_members)))
                                clock)).
    { apply yields_generate_route_plan;
        [exact contract | apply DemoData_post_init | discriminate |].
      apply yields_random_location;
        [exact contract | discriminate | exact DemoData_corners]. }
    destruct (Hyields (Random R (seed (DemoData_value member))))
      as (plan & g' & Hrun & Hplan).
    exists plan. rewrite Hrun. auto. }
  unfold generate_demo_data_with_clock. destruct demo_data_enum as [member|].
  - destruct (Hrun member) as (plan & Hplan & Hshape).
    exists member, plan. split; [congruence | now split].
  - assert (Hyields : yields (R := R) (choice DemoData_members)
                               (fun member => In member DemoData_members))
      by (apply yields_choice; [exact contract | discriminate]).
    destruct (Hyields module_random) as (member & g' & Hchoice & _).
    destruct (Hrun member) as (plan & Hplan & Hshape).
    exists member, plan. rewrite Hchoice. split; [discriminate | now split].
Qed.

(** Every call of [generate_demo_data] returns a plan, generated from the
    member that was named or, without a name, from one of the members. *)
Lemma generate_demo_data_plan (R : RandomSource) (contract : RandomContract R)
  (demo_data_enum : option DemoData) (today : date) (module_random : Rng R) :
  exists member plan,
    (forall chosen, demo_data_enum = Some chosen -> member = chosen) /\
    generate_demo_data R demo_data_enum today module_random = Ok plan /\
    generated_plan (DemoData_value member) (map DemoData_value DemoData_members) today plan.
Proof.
  destruct (generate_demo_data_with_clock_plan R contract demo_data_enum (fun _ => today)
              module_random) as (member & plan & Hsel & Hrun & Hplan).
  exists member, plan. split; [exact Hsel|]. split; [exact Hrun|].
  apply generated_plan_one_day; [apply DemoData_post_init | exact Hplan].
Qed.

Lemma seconds_of_time_range (t : time) : time_valid t -> 0 <= seconds_of_time t < SECONDS_PER_DAY.
Proof. unfold time_valid, seconds_of_time, SECONDS_PER_DAY. lia. Qed.

Lemma datetime_date_combine (d : date) (t : time) :
  time_valid t -> datetime_date (datetime_combine d t) = d.
Proof.
  intros Ht. apply seconds_of_time_range in Ht.
  unfold datetime_date, datetime_combine in *.
  rewrite Z.mul_comm, Z.div_add_l by (unfold SECONDS_PER_DAY; lia).
  rewrite Z.div_small by exact Ht. lia.
Qed.

Lemma datetime_second_of_day_combine (d : date) (t : time) :
  time_valid t -> datetime_second_of_day (datetime_combine d t) = seconds_of_time t.
Proof.
  intros Ht. apply seconds_of_time_range in Ht.
  unfold datetime_second_of_day, datetime_combine in *.
  rewrite Z.add_comm, Z.mul_comm, Z.mod_add by (unfold SECONDS_PER_DAY; lia).
  now apply Z.mod_small.
Qed.

Lemma window_times_valid :
  time_valid MORNING_WINDOW_START /\ time_valid MORNING_WINDOW_END /\
  time_valid AFTERNOON_WINDOW_START /\ time_valid AFTERNOON_WINDOW_END.
Proof. unfold time_valid; simpl; lia. Qed.

(** C8.  Under the contract of the random source every call of
    [generate_demo_data] returns a plan; the plan has [vehicle_count] vehicles
    and [visit_count] visits; every vehicle has a capacity between
    [min_vehicle_capacity] and [max_vehicle_capacity], bounds included, and
    the warehouse as home; every visit has a demand between [min_demand] and
    [max_demand], bounds included, a service duration of 10, 20, 30 or 40
    minutes and a location inside the rectangle of one of the datasets. *)
Theorem generate_demo_data_shape (R : RandomSource) (contract : RandomContract R)
  (demo_data_enum : option DemoData) (today : date) (module_random : Rng R) :
  exists member plan,
    (forall chosen, demo_data_enum = Some chosen -> member = chosen) /\
    generate_demo_data R demo_data_enum today module_random = Ok plan /\
    let demo_data := DemoData_value member in
    len (vehicles plan) = vehicle_count demo_data /\
    len (plan_visits plan) = visit_count demo_data /\
    (forall v, In v (vehicles plan) ->
       min_vehicle_capacity demo_data <= capacity v <= max_vehicle_capacity demo_data /\
       home_location v = WAREHOUSE_LOCATION) /\
    (forall visit, In visit (plan_visits plan) ->
       min_demand demo_data <= demand visit <= max_demand demo_data /\
       In (service_duration visit)
          [timedelta_minutes 10; timedelta_minutes 20; timedelta_minutes 30;
           timedelta_minutes 40] /\
       exists data, In data DemoData_members /\
         within (south_west_corner (DemoData_value data))
                (north_east_corner (DemoData_value data)) (location visit)).
Proof.
  destruct (generate_demo_data_plan R contract demo_data_enum today module_random)
    as (member & plan & Hsel & Hrun & Hvlen & Hlen & Hvs & Hvis & _).
  exists member, plan. repeat split; auto.
  - rewrite Forall_forall in Hvs. apply Hvs. assumption.
  - rewrite Forall_forall in Hvs. apply Hvs. assumption.
  - rewrite Forall_forall in Hvs. apply Hvs. assumption.
  - rewrite Forall_forall in Hvis. apply Hvis. assumption.
  - rewrite Forall_forall in Hvis. apply Hvis. assumption.
  - rewrite Forall_forall in Hvis. apply (Hvis visit). assumption.
  - rewrite Forall_forall in Hvis.
    destruct (Hvis visit ltac:(assumption)) as (_ & _ & (sw & ne & Hin & Hwithin) & _).
    rewrite map_map in Hin. apply in_map_iff in Hin. destruct Hin as (data & Heq & Hin).
    inversion Heq; subst. exists data. auto.
Qed.

(** C8, for the linear congruential source and the named dataset: 50 vehicles
    and 200 visits. *)
Lemma generate_demo_data_shape_witness :
  exists plan,
    generate_demo_data lcg (Some NEW_LOCATION) 739000 0 = Ok plan /\
    len (vehicles plan) = 50 /\ len (plan_visits plan) = 200.
Proof.
  destruct (generate_demo_data_shape lcg lcg_contract (Some NEW_LOCATION) 739000 0)
    as (member & plan & Hsel & Hrun & Hvehicles & Hvisits & _).
  rewrite (Hsel NEW_LOCATION eq_refl) in Hvehicles, Hvisits.
  exists plan. split; [exact Hrun | split; assumption].
Defined.

Lemma window_of_generated_visit_on (today_start today_end : date) (visit : Visit) :
  morning_window_on today_start today_end visit \/
  afternoon_window_on today_start today_end visit ->
  (today_start <= today_end -> min_start_time visit < max_end_time visit) /\
  datetime_date (min_start_time visit) = date_add today_start (timedelta_days 1) /\
  datetime_date (max_end_time visit) = date_add today_end (timedelta_days 1) /\
  ((datetime_second_of_day (min_start_time visit) = seconds_of_time (mk_time 8 0) /\
    datetime_second_of_day (max_end_time visit) = seconds_of_time (mk_time 12 0)) \/
   (datetime_second_of_day (min_start_time visit) = seconds_of_time (mk_time 13 0) /\
    datetime_second_of_day (max_end_time visit) = seconds_of_time (mk_time 18 0))).
Proof.
  destruct window_times_valid as (Hms & Hme & Has & Hae).
  rewrite !date_add_one_day.
  intros [[-> ->] | [-> ->]];
    rewrite !datetime_date_combine, !datetime_second_of_day_combine by assumption;
    (split; [unfold datetime_combine, seconds_of_time, MORNING_WINDOW_START,
               MORNING_WINDOW_END, AFTERNOON_WINDOW_START, AFTERNOON_WINDOW_END,
               SECONDS_PER_DAY;
             cbn [hour minute]; lia|]); auto.
Qed.

Lemma window_of_generated_visit (today : date) (visit : Visit) :
  morning_window today visit \/ afternoon_window today visit ->
  min_start_time visit < max_end_time visit /\
  datetime_date (min_start_time visit) = date_add today (timedelta_days 1) /\
  datetime_date (max_end_time visit) = date_add today (timedelta_days 1) /\
  ((datetime_second_of_day (min_start_time visit) = seconds_of_time (mk_time 8 0) /\
    datetime_second_of_day (max_end_time visit) = seconds_of_time (mk_time 12 0)) \/
   (datetime_second_of_day (min_start_time visit) = seconds_of_time (mk_time 13 0) /\
    datetime_second_of_day (max_end_time visit) = seconds_of_time (mk_time 18 0))).
Proof.
  intros Hwindow.
  destruct (window_of_generated_visit_on today today visit Hwindow) as (Hlt & Hrest).
  split; [apply Hlt; lia | exact Hrest].
Qed.






(** C10.  For every time of day, [tomorrow_at] combines it with today's date:
    the result lies on the day of the call and not on the day after, while
    the departure times and the windows of every generated plan lie on the
    day after the call. *)
Theorem tomorrow_at_is_today (today : date) (local_time : time) :
  time_valid local_time ->
  tomorrow_at today local_time = datetime_combine today local_time /\
  datetime_date (tomorrow_at today local_time) = today /\
  datetime_date (tomorrow_at today local_time) <> date_add today (timedelta_days 1) /\
  (forall (R : RandomSource) (contract : RandomContract R) demo_data_enum module_random,
      exists plan,
        generate_demo_data R demo_data_enum today module_random = Ok plan /\
        (forall v, In v (vehicles plan) ->
           datetime_date (departure_time v) = date_add today (timedelta_days 1)) /\
        (forall visit, In visit (plan_visits plan) ->
           datetime_date (min_start_time visit) = date_add today (timedelta_days 1) /\
           datetime_date (max_end_time visit) = date_add today (timedelta_days 1))).
Proof.
  intros Ht. unfold tomorrow_at. rewrite (datetime_date_combine today local_time Ht).
  rewrite date_add_one_day.
  split; [reflexivity|]. split; [reflexivity|]. split; [lia|].
  intros R contract demo_data_enum module_random.
  destruct (generate_demo_data_plan R contract demo_data_enum today module_random)
    as (member & plan & _ & Hrun & _ & _ & Hvs & Hvis & _).
  exists plan. split; [exact Hrun|]. rewrite Forall_forall in Hvs, Hvis. split.
  - intros v Hin. destruct (Hvs v Hin) as (_ & _ & -> & _).
    apply datetime_date_combine. destruct member. unfold time_valid; simpl; lia.
  - intros visit Hin. destruct (Hvis visit Hin) as (_ & _ & _ & Hwindow & _).
    pose proof (window_of_generated_visit today visit Hwindow) as (_ & H1 & H2 & _).
    rewrite date_add_one_day in H1, H2. auto.
Qed.

(** C10, at half past seven on day 739000. *)
Lemma tomorrow_at_is_today_witness :
  datetime_date (tomorrow_at 739000 (mk_time 7 30)) = 739000.
Proof.
  apply (tomorrow_at_is_today 739000 (mk_time 7 30)).
  unfold time_valid; simpl; lia.
Defined.

(** ** The date of the call *)

Lemma datetime_combine_shift (d days : Z) (t : time) :
  datetime_combine (date_add (d + days) (timedelta_days 1)) t =
  datetime_combine (date_add d (timedelta_days 1)) t + SECONDS_PER_DAY * days.
Proof. rewrite !date_add_one_day. unfold datetime_combine. lia. Qed.

Section DateOfTheCall.

Variable R : RandomSource.
Variable demo_data : _DemoDataProperties.
Variable days : Z.

Lemma new_vehicle_shift (today : date) (i : Z) (g : Rng R) :
  new_vehicle R demo_data (today + days) i g =
  gen_map (shift_vehicle days) (new_vehicle R demo_data today i) g.
Proof.
  unfold new_vehicle. rewrite gen_map_bind. apply bind_ext. intros units g'.
  rewrite gen_map_ret. unfold shift_vehicle, Vehicle_init; simpl.
  now rewrite datetime_combine_shift.
Qed.

Lemma new_visit_shift (ranges : list (Location * Location)) (today_start today_end : date)
  (i : Z) (g : Rng R) :
  new_visit R demo_data ranges (today_start + days) (today_end + days) i g =
  gen_map (shift_visit days) (new_visit R demo_data ranges today_start today_end i) g.
Proof.
  unfold new_visit.
  do 5 (rewrite gen_map_bind; apply bind_ext; intros ? ?).
  rewrite gen_map_ret. unfold shift_visit, Visit_init; simpl.
  now rewrite !datetime_combine_shift.
Qed.

Lemma generate_route_plan_shift (members : list _DemoDataProperties) (clock : Clock)
  (g : Rng R) :
  generate_route_plan R demo_data members (fun k => clock k + days) g =
  gen_map (shift_plan days) (generate_route_plan R demo_data members clock) g.
Proof.
  unfold generate_route_plan.
  rewrite gen_map_bind. unfold bind at 1 5.
  rewrite (for_in_gen_map (shift_vehicle days) (fun i => new_vehicle R demo_data (clock i) i))
    by (intros; apply new_vehicle_shift).
  unfold gen_map at 1.
  destruct (for_in (fun i => new_vehicle R demo_data (clock i) i) _ g) as [[vs g1]|e];
    [|reflexivity].
  cbn [result_map fst snd].
  assert (Hlen : len (map (shift_vehicle days) vs) = len vs)
    by (unfold len; now rewrite length_map).
  rewrite Hlen.
  rewrite gen_map_bind. unfold bind at 1 4.
  rewrite (for_in_gen_map (shift_visit days)
             (fun i => new_visit R demo_data _ (clock (len vs + 2 * i))
                                 (clock (len vs + 2 * i + 1)) i))
    by (intros; apply new_visit_shift).
  unfold gen_map at 1.
  destruct (for_in (fun i => new_visit R demo_data _ _ _ i) _ g1) as [[vis g2]|e];
    [|reflexivity].
  cbn [result_map fst snd].
  do 2 (rewrite gen_map_bind; apply bind_ext; intros ? ?).
  reflexivity.
Qed.

End DateOfTheCall.

Lemma shift_plan_zero (plan : VehicleRoutePlan) : shift_plan 0 plan = plan.
Proof.
  destruct plan as [n sw ne vs vis]. unfold shift_plan; simpl. f_equal.
  - rewrite <- (map_id vs) at 2. apply map_ext. intros [i c h d l].
    unfold shift_vehicle; simpl. f_equal. unfold SECONDS_PER_DAY; lia.
  - rewrite <- (map_id vis) at 2. apply map_ext. intros [i nm l d s e du v a].
    unfold shift_visit; simpl. f_equal; unfold SECONDS_PER_DAY; lia.
Qed.

(** C7, as amended.  Two calls of [generate_demo_data] with the same named
    dataset return the same result when they are made on the same day,
    whatever the state of the module's own random generator.  Made [days]
    days apart, they return plans that differ only in that every departure
    time and every time window is [days] days later: the vehicles, their
    capacities, the visits, their names, locations, demands and service
    durations, the times of day and the order are the same. *)
Theorem generate_demo_data_repeatable (R : RandomSource) (member : DemoData)
  (today days : Z) (g1 g2 : Rng R) :
  generate_demo_data R (Some member) today g1 = generate_demo_data R (Some member) today g2 /\
  generate_demo_data R (Some member) (today + days) g2 =
  result_map (shift_plan days) (generate_demo_data R (Some member) today g1).
Proof.
  split; [reflexivity|].
  unfold generate_demo_data, generate_demo_data_with_clock. cbn [result_bind].
  rewrite (generate_route_plan_shift R (DemoData_value member) days
             (map DemoData_value DemoData_members) (fun _ => today)).
  unfold gen_map.
  destruct (generate_route_plan R _ _ (fun _ => today) _) as [[plan g']|e]; reflexivity.
Qed.

(** C7 as amended, for the linear congruential source: the plan of day 739001
    is the plan of day 739000 with every date one day later. *)
Lemma generate_demo_data_repeatable_witness :
  generate_demo_data lcg (Some NEW_LOCATION) 739001 0 =
  result_map (shift_plan 1) (generate_demo_data lcg (Some NEW_LOCATION) 739000 0).
Proof.
  exact (proj2 (generate_demo_data_repeatable lcg NEW_LOCATION 739000 1 0 0)).
Defined.

(** C7 as stated fails: the same named dataset, generated on two consecutive
    days, gives two different plans (the first vehicle already departs a day
    later). *)
Lemma generate_demo_data_depends_on_the_day :
  generate_demo_data lcg (Some NEW_LOCATION) 739000 0 <>
  generate_demo_data lcg (Some NEW_LOCATION) 739001 0.
Proof.
  intros Heq.
  apply (f_equal (fun r => match r with
                           | Ok plan => map departure_time (firstn 1 (vehicles plan))
                           | Raise _ => []
                           end)) in Heq.
  vm_compute in Heq. discriminate Heq.
Qed.

(** ** Further properties of the constraints *)

Lemma score_penalty_add (w : HardSoftScore) (a b : Z) :
  score_negate (score_multiply w (a + b)) =
  score_add (score_negate (score_multiply w a)) (score_negate (score_multiply w b)).
Proof. unfold score_negate, score_multiply, score_add; simpl. f_equal; lia. Qed.

Lemma sum_over_cons {A} (f : A -> Z) (a : A) (l : list A) :
  sum_over f (a :: l) = f a + sum_over f l.
Proof. reflexivity. Qed.

(** The score of a constraint is its weight times the sum of its match
    weights, negated. *)
Lemma constraint_score_sum (c : Constraint) (plan : VehicleRoutePlan) :
  constraint_score c plan =
  score_negate (score_multiply (constraint_weight c)
                               (sum_over (fun w => w) (match_weights c plan))).
Proof.
  unfold constraint_score, match_impact.
  induction (match_weights c plan) as [|w ws IH]; cbn [fold_right].
  - unfold score_negate, score_multiply, ZERO; simpl. f_equal; lia.
  - now rewrite IH, sum_over_cons, score_penalty_add.
Qed.

Lemma sum_over_map {A} (f : A -> Z) (l : list A) :
  sum_over (fun w => w) (map f l) = sum_over f l.
Proof.
  induction l as [|a l IH]; [reflexivity|].
  cbn [map]. now rewrite !sum_over_cons, IH.
Qed.

Lemma sum_over_filter {A} (p : A -> bool) (f : A -> Z) (l : list A) :
  sum_over f (List.filter p l) = sum_over (fun a => if p a then f a else 0) l.
Proof.
  induction l as [|a l IH]; [reflexivity|]. cbn [List.filter].
  rewrite (sum_over_cons (fun a => if p a then f a else 0)).
  destruct (p a); [rewrite sum_over_cons|]; rewrite IH; reflexivity.
Qed.

Lemma sum_over_ext {A} (f g : A -> Z) (l : list A) :
  (forall a, f a = g a) -> sum_over f l = sum_over g l.
Proof.
  intros H. induction l as [|a l IH]; [reflexivity|].
  now rewrite !sum_over_cons, H, IH.
Qed.

Lemma soft_penalty (k s : Z) :
  score_negate (score_multiply (HardSoftScore_of 0 k) s) = HardSoftScore_of 0 (- (k * s)).
Proof. unfold score_negate, score_multiply; simpl. f_equal. Qed.

(** The match weights of a filtered stream of vehicles add up to the sum of
    the weigher over the vehicles the filter keeps. *)
Lemma filtered_vehicle_weights name weight predicate weigher plan :
  let c := for_each the_factory Vehicle |> filter predicate
           |> penalize weight weigher |> as_constraint name in
  sum_over (fun w => w) (match_weights c plan) =
  sum_over (fun v => if predicate v then weigher v else 0) (vehicles plan).
Proof.
  cbv [as_constraint penalize filter for_each instances Vehicle_class match_weights
       builder_matches].
  now rewrite sum_over_map, sum_over_filter.
Qed.

Lemma all_vehicle_weights name weight weigher plan :
  let c := for_each the_factory Vehicle |> penalize weight weigher |> as_constraint name in
  sum_over (fun w => w) (match_weights c plan) = sum_over weigher (vehicles plan).
Proof.
  cbv [as_constraint penalize for_each instances Vehicle_class match_weights builder_matches].
  now rewrite sum_over_map.
Qed.

Section SoftConstraints.

Variable driving_time : Vehicle -> Z.

(** X1.  [minimizeTravelTime] has no filter: in every plan it lowers the soft
    score by the driving time of every vehicle, the idle ones included, and
    never touches the hard score; the plan scores minus the sum of the
    driving times. *)
Theorem minimize_travel_time_total (plan : VehicleRoutePlan) :
  constraint_score (minimize_travel_time driving_time the_factory) plan =
  HardSoftScore_of 0 (- sum_over driving_time (vehicles plan)).
Proof.
  rewrite constraint_score_sum. unfold minimize_travel_time.
  rewrite all_vehicle_weights. cbn [constraint_weight as_constraint penalize builder_weight].
  rewrite soft_penalty, Z.mul_1_l. reflexivity.
Qed.

End SoftConstraints.

(** X2.  [balanceLoad] lowers the soft score by 5 times the total demand of
    every vehicle, so a plan scores minus 5 times the sum of the vehicles'
    total demands: two plans in which that sum is the same score the same,
    however the demand is spread over the vehicles. *)
Theorem balance_load_total :
  (forall plan,
      constraint_score (balance_load the_factory) plan =
      HardSoftScore_of 0 (- (5 * sum_over total_demand (vehicles plan)))) /\
  (forall plan1 plan2,
      sum_over total_demand (vehicles plan1) = sum_over total_demand (vehicles plan2) ->
      constraint_score (balance_load the_factory) plan1 =
      constraint_score (balance_load the_factory) plan2).
Proof.
  assert (Htotal : forall plan,
             constraint_score (balance_load the_factory) plan =
             HardSoftScore_of 0 (- (5 * sum_over total_demand (vehicles plan)))).
  { intros plan. rewrite constraint_score_sum. unfold balance_load.
    rewrite all_vehicle_weights.
    cbn [constraint_weight as_constraint penalize builder_weight].
    now rewrite soft_penalty. }
  split; [exact Htotal|].
  intros plan1 plan2 Hsum. now rewrite !Htotal, Hsum.
Qed.

(** X2, at two plans that carry 8 units: all on one of two vehicles, or 4 on
    each. *)
Lemma balance_load_total_witness :
  constraint_score (balance_load the_factory)
    (sample_plan [sample_vehicle 10 [4; 4]; sample_vehicle 10 []] []) =
  constraint_score (balance_load the_factory)
    (sample_plan [sample_vehicle 10 [4]; sample_vehicle 10 [4]] []).
Proof.
  apply (proj2 balance_load_total). reflexivity.
Defined.

(** X3.  [minimizeMaxLoad] lowers the soft score by 10 for every unit of total
    demand a vehicle carries above 15 and ignores the vehicles that carry 15
    or less: a plan scores minus 10 times the sum of the excesses. *)
Theorem minimize_max_load_total (plan : VehicleRoutePlan) :
  constraint_score (minimize_max_load the_factory) plan =
  HardSoftScore_of 0
    (- (10 * sum_over (fun v => Z.max 0 (total_demand v - 15)) (vehicles plan))).
Proof.
  rewrite constraint_score_sum. unfold minimize_max_load.
  rewrite filtered_vehicle_weights.
  cbn [constraint_weight as_constraint penalize builder_weight].
  rewrite soft_penalty. do 3 f_equal. apply sum_over_ext. intros v.
  unfold MAX_LOAD_PER_VEHICLE. destruct (Z.gtb_spec (total_demand v) 15); lia.
Qed.

(** X4.  [encourageFullUtilization] lowers the soft score by 3 for every unit
    of total demand a vehicle is short of 5 and ignores the vehicles that
    carry 5 or more: a plan scores minus 3 times the sum of the shortfalls.
    A vehicle that carries nothing is 5 units short and costs 15. *)
Theorem encourage_full_utilization_total :
  (forall plan,
      constraint_score (encourage_full_utilization the_factory) plan =
      HardSoftScore_of 0
        (- (3 * sum_over (fun v => Z.max 0 (5 - total_demand v)) (vehicles plan)))) /\
  (forall n sw ne v vis,
      total_demand v = 0 ->
      constraint_score (encourage_full_utilization the_factory)
        (mk_VehicleRoutePlan n sw ne [v] vis) = HardSoftScore_of 0 (-15)).
Proof.
  assert (Htotal : forall plan,
      constraint_score (encourage_full_utilization the_factory) plan =
      HardSoftScore_of 0
        (- (3 * sum_over (fun v => Z.max 0 (5 - total_demand v)) (vehicles plan)))).
  { intros plan. rewrite constraint_score_sum. unfold encourage_full_utilization.
    rewrite filtered_vehicle_weights.
    cbn [constraint_weight as_constraint penalize builder_weight].
    rewrite soft_penalty. do 3 f_equal. apply sum_over_ext. intros v.
    unfold MIN_LOAD_THRESHOLD. destruct (Z.ltb_spec (total_demand v) 5); lia. }
  split; [exact Htotal|].
  intros n sw ne v vis Hzero. rewrite Htotal. cbn [vehicles].
  rewrite sum_over_cons, Hzero. reflexivity.
Qed.

(** X4, at a plan whose only vehicle has no visit. *)
Lemma encourage_full_utilization_total_witness :
  constraint_score (encourage_full_utilization the_factory)
    (sample_plan [sample_vehicle 10 []] []) = HardSoftScore_of 0 (-15).
Proof.
  apply (proj2 encourage_full_utilization_total). reflexivity.
Defined.

Lemma Forall_map_filter {A} (P : Z -> Prop) (p : A -> bool) (f : A -> Z) (l : list A) :
  (forall a, p a = true -> P (f a)) -> Forall P (map f (List.filter p l)).
Proof.
  intros H. induction l as [|a l IH]; [constructor|].
  cbn [List.filter]. destruct (p a) eqn:Hp; [|exact IH].
  cbn [map]. constructor; auto.
Qed.

Lemma sum_over_positive (ws : list Z) : Forall (fun w => 0 < w) ws -> 0 <= sum_over (fun w => w) ws.
Proof.
  induction 1 as [|w ws Hw _ IH]; [reflexivity|]. rewrite sum_over_cons. lia.
Qed.

Section MatchWeights.

Variable driving_time : Vehicle -> Z.

(** X5.  The constraints that have a filter never hand a zero or negative
    match weight to [penalize]: in every plan each match of
    [vehicleCapacity], [limitDrivingTime], [minimizeMaxLoad],
    [encourageFullUtilization] and [minimizeVehicleCount] has a positive
    weight, whatever the capacities, demands and driving times are, so none
    of these constraints ever raises a score. *)
Theorem filtered_match_weights_positive (plan : VehicleRoutePlan) (c : Constraint) :
  In c [vehicle_capacity the_factory; limit_driving_time driving_time the_factory;
        minimize_max_load the_factory; encourage_full_utilization the_factory;
        minimize_vehicle_count the_factory] ->
  Forall (fun w => 0 < w) (match_weights c plan) /\
  hard_score (constraint_score c plan) <= 0 /\
  soft_score (constraint_score c plan) <= 0.
Proof.
  intros Hin.
  assert (Hpos : Forall (fun w => 0 < w) (match_weights c plan) /\
                 0 <= hard_score (constraint_weight c) /\
                 0 <= soft_score (constraint_weight c)).
  { cbn [In] in Hin.
    repeat destruct Hin as [<- | Hin]; try contradiction;
      (split; [|cbn; lia]);
      cbv [vehicle_capacity limit_driving_time minimize_max_load encourage_full_utilization
           minimize_vehicle_count penalize_each as_constraint penalize filter for_each
           instances Vehicle_class match_weights builder_matches];
      apply Forall_map_filter; intros v Hv.
    - apply Z.gtb_lt in Hv. lia.
    - apply Z.gtb_lt in Hv. lia.
    - apply Z.gtb_lt in Hv. lia.
    - apply Z.ltb_lt in Hv. lia.
    - lia. }
  destruct Hpos as (Hws & Hhard & Hsoft). split; [exact Hws|].
  rewrite constraint_score_sum. apply sum_over_positive in Hws.
  unfold score_negate, score_multiply; cbn [hard_score soft_score]. nia.
Qed.

End MatchWeights.

(** X5, at a vehicle that carries 12 units with a capacity of 10. *)
Lemma filtered_match_weights_positive_witness :
  Forall (fun w => 0 < w)
    (match_weights (vehicle_capacity the_factory)
                   (sample_plan [sample_vehicle 10 [4; 4; 4]] [])).
Proof.
  apply (filtered_match_weights_positive (fun _ => 0)). cbn [In]. auto.
Defined.

Section Layout.

Variable driving_time : Vehicle -> Z.

(** X6.  Whatever the switches, the constraints [define_constraints] returns
    have pairwise different names, there are two of them plus one for every
    switch that is on, and the list is a run of hard constraints followed by
    a run of soft ones. *)
Theorem define_constraints_layout (flags : Flags) :
  let constraints := define_constraints driving_time flags the_factory in
  NoDup (map constraint_name constraints) /\
  len constraints = 2 + enabled_count flags /\
  exists hard soft,
    constraints = hard ++ soft /\
    Forall hard_constraint hard /\ Forall soft_constraint soft.
Proof.
  intros constraints. split; [|split].
  - destruct flags as [[] [] [] [] [] []]; cbv; distinct_names.
  - destruct flags as [[] [] [] [] [] []]; reflexivity.
  - exists (firstn (1 + Nat.b2n (ENABLE_TIME_WINDOW_CONSTRAINTS flags)
                      + Nat.b2n (ENABLE_DRIVING_TIME_LIMIT flags)) constraints),
           (skipn (1 + Nat.b2n (ENABLE_TIME_WINDOW_CONSTRAINTS flags)
                     + Nat.b2n (ENABLE_DRIVING_TIME_LIMIT flags)) constraints).
    split; [now rewrite firstn_skipn|].
    destruct flags as [[] [] [] [] [] []];
      (split; repeat constructor; cbn; lia).
Qed.

End Layout.

(** ** The order of the entities in a plan *)

Lemma sum_over_Permutation {A} (f : A -> Z) (l l' : list A) :
  Permutation l l' -> sum_over f l = sum_over f l'.
Proof.
  induction 1 as [|a l l' _ IH|a b l|l l' l'' _ IH1 _ IH2].
  - reflexivity.
  - now rewrite !sum_over_cons, IH.
  - rewrite !sum_over_cons. lia.
  - congruence.
Qed.

Lemma filter_Permutation {A} (p : A -> bool) (l l' : list A) :
  Permutation l l' -> Permutation (List.filter p l) (List.filter p l').
Proof.
  induction 1 as [|a l l' _ IH|a b l|l l' l'' _ IH1 _ IH2]; cbn [List.filter].
  - constructor.
  - destruct (p a); [now constructor | exact IH].
  - destruct (p a), (p b); try reflexivity. constructor.
  - now transitivity (List.filter p l').
Qed.

Section OrderOfEntities.

Variable driving_time : Vehicle -> Z.

(** X7.  No constraint of [define_constraints] depends on the order in which
    a plan lists its vehicles or its visits: two plans that hold the same
    vehicles and the same visits, in any order, get the same score from
    every constraint. *)
Theorem constraint_score_order_free (flags : Flags) (c : Constraint)
  (plan1 plan2 : VehicleRoutePlan) :
  In c (define_constraints driving_time flags the_factory) ->
  Permutation (vehicles plan1) (vehicles plan2) ->
  Permutation (plan_visits plan1) (plan_visits plan2) ->
  constraint_score c plan1 = constraint_score c plan2.
Proof.
  intros Hin Hvehicles Hvisits.
  rewrite !constraint_score_sum. do 2 f_equal. apply sum_over_Permutation.
  destruct flags as [[] [] [] [] [] []];
    cbv [define_constraints append_if ENABLE_TIME_WINDOW_CONSTRAINTS ENABLE_LOAD_BALANCING
         ENABLE_DRIVING_TIME_LIMIT ENABLE_MINIMIZE_MAX_LOAD ENABLE_ENCOURAGE_FULL_UTILIZATION
         ENABLE_MINIMIZE_VEHICLE_COUNT app] in Hin;
    cbn [In] in Hin;
    repeat destruct Hin as [<- | Hin]; try contradiction;
    cbv [vehicle_capacity service_finished_after_max_end_time limit_driving_time
         minimize_travel_time balance_load minimize_max_load encourage_full_utilization
         minimize_vehicle_count penalize_each as_constraint penalize filter for_each
         instances Vehicle_class Visit_class match_weights builder_matches];
    repeat first [apply Permutation_map | apply filter_Permutation]; assumption.
Qed.

End OrderOfEntities.

(** X7, at a plan with two vehicles and the plan that lists them the other way
    round. *)
Lemma constraint_score_order_free_witness :
  constraint_score (vehicle_capacity the_factory)
    (sample_plan [sample_vehicle 10 [4; 4; 4]; sample_vehicle 3 [5]] []) =
  constraint_score (vehicle_capacity the_factory)
    (sample_plan [sample_vehicle 3 [5]; sample_vehicle 10 [4; 4; 4]] []).
Proof.
  apply (constraint_score_order_free (fun _ => 0) module_flags).
  - cbn. auto.
  - apply perm_swap.
  - apply perm_nil.
Defined.

(** ** Further properties of the generator *)

Lemma to_int_not_nil (z : Z) : Z.to_int z <> Decimal.Pos Decimal.Nil /\ Z.to_int z <> Decimal.Neg Decimal.Nil.
Proof.
  destruct z as [|p|p]; cbn [Z.to_int]; split; try discriminate;
    intros [= H]; now apply (DecimalPos.Unsigned.to_uint_nonnil p).
Qed.

(** [str] gives different numerals to different integers. *)
Lemma str_inj (a b : Z) : str a = str b -> a = b.
Proof.
  unfold str. intros H. apply DecimalZ.to_int_inj.
  destruct (to_int_not_nil a) as [Ha1 Ha2], (to_int_not_nil b) as [Hb1 Hb2].
  pose proof (NilZero.isi (Z.to_int a) Ha1 Ha2) as Hia.
  pose proof (NilZero.isi (Z.to_int b) Hb1 Hb2) as Hib.
  rewrite H in Hia. congruence.
Qed.

Lemma NoDup_range (n : Z) : NoDup (range n).
Proof.
  unfold range. apply Finite.Injective_map_NoDup; [|apply seq_NoDup].
  intros a b. apply Nat2Z.inj.
Qed.

Lemma NoDup_str_range (n : Z) : NoDup (map str (range n)).
Proof.
  apply Finite.Injective_map_NoDup; [|apply NoDup_range].
  intros a b. apply str_inj.
Qed.

(** X8.  Under the contract of the random source, the vehicles of a generated
    plan carry the decimal numerals of 0, 1, ... as ids, in that order, and
    so do the visits; the ids of the vehicles are pairwise different and so
    are the ids of the visits. *)
Theorem generated_ids (R : RandomSource) (contract : RandomContract R)
  (demo_data_enum : option DemoData) (today : date) (module_random : Rng R) :
  exists member plan,
    (forall chosen, demo_data_enum = Some chosen -> member = chosen) /\
    generate_demo_data R demo_data_enum today module_random = Ok plan /\
    map vehicle_id (vehicles plan) = map str (range (vehicle_count (DemoData_value member))) /\
    map visit_id (plan_visits plan) = map str (range (visit_count (DemoData_value member))) /\
    NoDup (map vehicle_id (vehicles plan)) /\
    NoDup (map visit_id (plan_visits plan)).
Proof.
  destruct (generate_demo_data_plan R contract demo_data_enum today module_random)
    as (member & plan & Hsel & Hrun & _ & _ & _ & _ & Hvids & Hids).
  exists member, plan. rewrite Hvids, Hids.
  repeat split; auto using NoDup_str_range.
Qed.

(** X8, for the linear congruential source: the first vehicle is vehicle "0"
    and no two visits share an id. *)
Lemma generated_ids_witness :
  exists plan,
    generate_demo_data lcg (Some NEW_LOCATION) 739000 0 = Ok plan /\
    map vehicle_id (firstn 1 (vehicles plan)) = ["0"%string] /\
    NoDup (map visit_id (plan_visits plan)).
Proof.
  destruct (generated_ids lcg lcg_contract (Some NEW_LOCATION) 739000 0)
    as (member & plan & Hsel & Hrun & Hvids & _ & _ & Hnodup).
  rewrite (Hsel NEW_LOCATION eq_refl) in Hvids.
  exists plan. split; [exact Hrun|]. split; [|exact Hnodup].
  rewrite <- firstn_map, Hvids. reflexivity.
Defined.

(** The name and the corners of every plan [generate_demo_data] returns. *)
Lemma generate_demo_data_header (R : RandomSource) (demo_data_enum : option DemoData)
  (today : date) (module_random : Rng R) (plan : VehicleRoutePlan) :
  generate_demo_data R demo_data_enum today module_random = Ok plan ->
  plan_name plan = "demo"%string /\
  plan_south_west_corner plan = south_west_corner (DemoData_value NEW_LOCATION) /\
  plan_north_east_corner plan = north_east_corner (DemoData_value NEW_LOCATION).
Proof.
  assert (Hbody : forall demo_data clock g out,
             generate_route_plan R demo_data (map DemoData_value DemoData_members) clock g =
             Ok out ->
             plan_name (fst out) = "demo"%string /\
             plan_south_west_corner (fst out) = south_west_corner (DemoData_value NEW_LOCATION) /\
             plan_north_east_corner (fst out) = north_east_corner (DemoData_value NEW_LOCATION)).
  { intros demo_data clock g out. unfold generate_route_plan, bind.
    destruct (for_in (fun i => new_vehicle R demo_data (clock i) i) _ g) as [[vs g1]|e];
      [|discriminate].
    destruct (for_in (fun i => new_visit R demo_data _ _ _ i) _ g1) as [[vis g2]|e];
      [|discriminate].
    cbn. intros [= <-]. auto. }
  unfold generate_demo_data, generate_demo_data_with_clock, result_bind.
  destruct demo_data_enum as [member|].
  - destruct (generate_route_plan R _ _ _ _) as [out|e] eqn:Hout; [|discriminate].
    intros [= <-]. eapply Hbody, Hout.
  - destruct (choice DemoData_members module_random) as [[member g']|e]; [|discriminate].
    cbn [fst].
    destruct (generate_route_plan R _ _ _ _) as [out|e] eqn:Hout; [|discriminate].
    intros [= <-]. eapply Hbody, Hout.
Qed.

(** X9.  Under the contract of the random source every generated plan is
    named "demo", its corners are the corners of the [NEW_LOCATION] dataset,
    and the rectangle they span holds the location of every visit and the
    home location of every vehicle. *)
Theorem generated_plan_bounds (R : RandomSource) (contract : RandomContract R)
  (demo_data_enum : option DemoData) (today : date) (module_random : Rng R) :
  exists plan,
    generate_demo_data R demo_data_enum today module_random = Ok plan /\
    plan_name plan = "demo"%string /\
    plan_south_west_corner plan = south_west_corner (DemoData_value NEW_LOCATION) /\
    plan_north_east_corner plan = north_east_corner (DemoData_value NEW_LOCATION) /\
    (forall visit, In visit (plan_visits plan) ->
       within (plan_south_west_corner plan) (plan_north_east_corner plan) (location visit)) /\
    (forall v, In v (vehicles plan) ->
       within (plan_south_west_corner plan) (plan_north_east_corner plan) (home_location v)).
Proof.
  destruct (generate_demo_data_plan R contract demo_data_enum today module_random)
    as (member & plan & _ & Hrun & _ & _ & Hvs & Hvis & _).
  destruct (generate_demo_data_header R _ _ _ _ Hrun) as (Hname & Hsw & Hne).
  exists plan. rewrite Hsw, Hne.
  split; [exact Hrun|]. split; [exact Hname|]. do 2 (split; [reflexivity|]). split.
  - intros visit Hin. rewrite Forall_forall in Hvis.
    destruct (Hvis visit Hin) as (_ & _ & (sw & ne & Hrange & Hwithin) & _).
    cbn [map DemoData_members In] in Hrange. destruct Hrange as [[= <- <-] | []].
    exact Hwithin.
  - intros v Hin. rewrite Forall_forall in Hvs.
    destruct (Hvs v Hin) as (_ & -> & _). repeat split; reflexivity.
Qed.

(** X9, for the linear congruential source. *)
Lemma generated_plan_bounds_witness :
  exists plan,
    generate_demo_data lcg None 739000 0 = Ok plan /\ plan_name plan = "demo"%string.
Proof.
  destruct (generated_plan_bounds lcg lcg_contract None 739000 0)
    as (plan & Hrun & Hname & _).
  exists plan. split; assumption.
Defined.

(** X10.  Without an argument [generate_demo_data] returns what it returns
    for [NEW_LOCATION]: under the contract of the random source the state of
    the module's own generator has no influence on the plan. *)
Theorem generate_demo_data_default (R : RandomSource) (contract : RandomContract R)
  (today : date) (module_random module_random' : Rng R) :
  generate_demo_data R None today module_random =
  generate_demo_data R (Some NEW_LOCATION) today module_random'.
Proof.
  assert (Hyields : yields (R := R) (choice DemoData_members)
                           (fun member => In member DemoData_members))
    by (apply yields_choice; [exact contract | discriminate]).
  destruct (Hyields module_random) as (member & g' & Hchoice & _).
  unfold generate_demo_data, generate_demo_data_with_clock. rewrite Hchoice.
  destruct member. reflexivity.
Qed.

(** X10, for the linear congruential source in two different states. *)
Lemma generate_demo_data_default_witness :
  generate_demo_data lcg None 739000 17 = generate_demo_data lcg (Some NEW_LOCATION) 739000 0.
Proof.
  exact (generate_demo_data_default lcg lcg_contract 739000 17 0).
Defined.

(** X13.  Under the contract of the random source every visit of a generated
    plan is named by a first name of [FIRST_NAMES], a space and a last name
    of [LAST_NAMES]. *)
Theorem generated_names (R : RandomSource) (contract : RandomContract R)
  (demo_data_enum : option DemoData) (today : date) (module_random : Rng R) :
  exists plan,
    generate_demo_data R demo_data_enum today module_random = Ok plan /\
    forall visit, In visit (plan_visits plan) ->
      exists first last,
        In first FIRST_NAMES /\ In last LAST_NAMES /\
        visit_name visit = (first ++ " " ++ last)%string.
Proof.
  destruct (generate_demo_data_plan R contract demo_data_enum today module_random)
    as (member & plan & _ & Hrun & _ & _ & _ & Hvis & _).
  exists plan. split; [exact Hrun|]. intros visit Hin.
  rewrite Forall_forall in Hvis. destruct (Hvis visit Hin) as (_ & _ & _ & _ & Hname & _).
  apply in_flat_map in Hname. destruct Hname as (first & Hfirst & Hname).
  apply in_map_iff in Hname. destruct Hname as (last & Heq & Hlast).
  exists first, last. auto.
Qed.

(** X13, for the linear congruential source. *)
Lemma generated_names_witness :
  exists plan,
    generate_demo_data lcg (Some NEW_LOCATION) 739000 0 = Ok plan /\
    forall visit, In visit (plan_visits plan) ->
      exists first last, visit_name visit = (first ++ " " ++ last)%string.
Proof.
  destruct (generated_names lcg lcg_contract (Some NEW_LOCATION) 739000 0)
    as (plan & Hrun & Hnames).
  exists plan. split; [exact Hrun|]. intros visit Hin.
  destruct (Hnames visit Hin) as (first & last & _ & _ & Hname).
  exists first, last. exact Hname.
Defined.

(** X14.  The helper generators at their edges.  [values] over an empty
    sequence raises a [ValueError] (from [randint(0, -1)]), it never indexes
    the sequence; over a sequence that is not empty it yields one of its
    elements.  [ints(start, end)] raises a [ValueError] when [end <= start]
    and otherwise yields an integer from [start] up to, and without,
    [end]. *)
Theorem helper_generators_edges (R : RandomSource) (contract : RandomContract R) :
  (forall (A : Type) (g : Rng R),
      exists msg, values (R := R) (@nil A) g = Raise (ValueError msg)) /\
  (forall (A : Type) (sequence : list A),
      sequence <> [] -> yields (R := R) (values sequence) (fun x => In x sequence)) /\
  (forall start end_ (g : Rng R),
      end_ <= start -> exists msg, ints R start end_ g = Raise (ValueError msg)) /\
  (forall start end_,
      start < end_ -> yields (ints R start end_) (fun r => start <= r < end_)).
Proof.
  split; [|split; [|split]].
  - intros A g. eexists. reflexivity.
  - intros A sequence Hne. now apply yields_values.
  - intros start end_ g Hle. unfold ints, randrange.
    destruct (Z.gtb_spec (end_ - start) 0); [lia|]. eexists. reflexivity.
  - intros start end_ Hlt. now apply yields_randrange.
Qed.

(** X14, for the linear congruential source: a service duration drawn with
    [values] is one of the four. *)
Lemma helper_generators_edges_witness :
  exists minutes g',
    values (R := lcg) SERVICE_DURATION_MINUTES 0 = Ok (minutes, g') /\
    In minutes SERVICE_DURATION_MINUTES.
Proof.
  apply (proj1 (proj2 (helper_generators_edges lcg lcg_contract))). discriminate.
Defined.

(** X15.  Under the contract of the random source the data of a generated
    plan fit together: every vehicle departs at 07:30 on the day after the
    call, before the window of any visit opens; the service of a visit that
    starts when its window opens ends before the window closes; and the
    demand of every visit is positive and at most the capacity of every
    vehicle. *)
Theorem generated_plan_consistent (R : RandomSource) (contract : RandomContract R)
  (demo_data_enum : option DemoData) (today : date) (module_random : Rng R) :
  exists plan,
    generate_demo_data R demo_data_enum today module_random = Ok plan /\
    (forall v, In v (vehicles plan) ->
       departure_time v = datetime_combine (today + 1) (mk_time 7 30)) /\
    (forall v visit, In v (vehicles plan) -> In visit (plan_visits plan) ->
       departure_time v < min_start_time visit /\
       0 < demand visit <= capacity v) /\
    (forall visit, In visit (plan_visits plan) ->
       min_start_time visit + service_duration visit < max_end_time visit).
Proof.
  destruct (generate_demo_data_plan R contract demo_data_enum today module_random)
    as (member & plan & _ & Hrun & _ & _ & Hvs & Hvis & _).
  exists plan. rewrite Forall_forall in Hvs, Hvis. destruct member.
  split; [exact Hrun|]. split; [|split].
  - intros v Hin. now destruct (Hvs v Hin) as (_ & _ & -> & _).
  - intros v visit Hv Hvisit.
    destruct (Hvs v Hv) as (Hcap & _ & -> & _).
    destruct (Hvis visit Hvisit) as (Hdemand & _ & _ & Hwindow & _).
    cbn in Hcap, Hdemand. split; [|lia].
    destruct Hwindow as [[-> _] | [-> _]]; unfold datetime_combine, SECONDS_PER_DAY; cbn; lia.
  - intros visit Hin.
    destruct (Hvis visit Hin) as (_ & Hduration & _ & Hwindow & _).
    cbn [map SERVICE_DURATION_MINUTES In] in Hduration. unfold timedelta_minutes in Hduration.
    destruct Hwindow as [[-> ->] | [-> ->]]; unfold datetime_combine, SECONDS_PER_DAY; cbn; lia.
Qed.

(** X15, for the linear congruential source. *)
Lemma generated_plan_consistent_witness :
  exists plan,
    generate_demo_data lcg (Some NEW_LOCATION) 739000 0 = Ok plan /\
    forall visit, In visit (plan_visits plan) ->
      min_start_time visit + service_duration visit < max_end_time visit.
Proof.
  destruct (generated_plan_consistent lcg lcg_contract (Some NEW_LOCATION) 739000 0)
    as (plan & Hrun & _ & _ & Hfit).
  exists plan. split; assumption.
Defined.




(** X17.  A gap in the validation: a corner with a NaN coordinate is never
    reported.  When the demand and capacity bounds and the counts are valid
    and the north-east corner has NaN as latitude and as longitude,
    [__post_init__] returns without raising, wherever the south-west corner
    is. *)
Theorem post_init_accepts_nan_corner (self : _DemoDataProperties) :
  1 <= min_demand self < max_demand self ->
  1 <= min_vehicle_capacity self < max_vehicle_capacity self ->
  1 <= visit_count self -> 1 <= vehicle_count self ->
  latitude (north_east_corner self) = S754_nan ->
  longitude (north_east_corner self) = S754_nan ->
  __post_init__ self = Ok tt /\ new_DemoDataProperties self = Ok self.
Proof.
  intros Hdemand Hcapacity Hvisits Hvehicles Hlat Hlon.
  assert (Hok : __post_init__ self = Ok tt).
  { unfold __post_init__. rewrite Hlat, Hlon.
    destruct (Z.ltb_spec (min_demand self) 1); [lia|].
    destruct (Z.ltb_spec (max_demand self) 1); [lia|].
    destruct (Z.geb_spec (min_demand self) (max_demand self)); [lia|].
    destruct (Z.ltb_spec (min_vehicle_capacity self) 1); [lia|].
    destruct (Z.ltb_spec (max_vehicle_capacity self) 1); [lia|].
    destruct (Z.geb_spec (min_vehicle_capacity self) (max_vehicle_capacity self)); [lia|].
    destruct (Z.ltb_spec (visit_count self) 1); [lia|].
    destruct (Z.ltb_spec (vehicle_count self) 1); [lia|].
    reflexivity. }
  split; [exact Hok|]. unfold new_DemoDataProperties. now rewrite Hok.
Qed.

(** X17, at the [NEW_LOCATION] definition with a NaN north-east corner. *)
Lemma post_init_accepts_nan_corner_witness : new_DemoDataProperties nan_corner = Ok nan_corner.
Proof.
  apply (post_init_accepts_nan_corner nan_corner); cbn; try lia; reflexivity.
Defined.
